(** * Patient Management System API: a shallow embedding of [main.py]

    The program is a FastAPI application over one JSON file,
    [patients.json].  Every handler loads the whole file, works on the
    loaded value and, for the three mutations, dumps the whole value back.

    The embedding keeps the program's own shapes:
    - Python values that travel through [json.load]/[json.dump] are the
      inductive [json]; a [dict] is an association list in insertion order
      without repeated keys, because iteration order is observable
      ([for patient in data], [sorted(data, ...)]);
    - a Python [float] is an IEEE 754 binary64 number, here [spec_float] of
      the library's [SpecFloat] with [prec = 53] and [emax = 1024];
    - exceptions are the type [exn]; a fallible pure computation is a
      [result]; a handler is a computation [M] over the [world] (the file and
      the trace of the writes of [save_data]) that returns a [result];
    - what the platform decides and the repository does not is a parameter:
      the rounding of the C library's [pow] ([libm]), Pydantic's conversion
      of values of another type ([lax]), and whether the file can be read
      and written (the states of [file]). *)

From Stdlib Require Import ZArith List String Ascii Bool Lia.
From Stdlib Require Import Permutation Sorted.
From Stdlib Require Import Floats.SpecFloat.
Import ListNotations.

Local Open Scope string_scope.
Local Open Scope list_scope.
Local Open Scope Z_scope.

Set Warnings "-register-all".

(** ** Exceptions and fallible computations *)

Inductive exn : Type :=
| HTTPException (status_code : Z) (detail : string)
| TypeError
| KeyError
| AttributeError
| ZeroDivisionError
| OverflowError
| ValidationError
| FileNotFoundError
| JSONDecodeError
| PermissionError
| UnicodeDecodeError
| ValueError
| OSError.

Inductive result (A : Type) : Type :=
| Ok (a : A)
| Raise (e : exn).

Arguments Ok {A} a.
Arguments Raise {A} e.

Definition rbind {A B : Type} (r : result A) (k : A -> result B) : result B :=
  match r with
  | Ok a => k a
  | Raise e => Raise e
  end.

Notation "'let?' x ':=' r 'in' k" := (rbind r (fun x => k))
  (at level 10, x name, r at level 100, k at level 200).

Fixpoint rmap {A B : Type} (f : A -> result B) (l : list A) : result (list B) :=
  match l with
  | [] => Ok []
  | x :: l' =>
      let? y := f x in
      let? ys := rmap f l' in
      Ok (y :: ys)
  end.

Fixpoint rfold {A B : Type} (f : A -> B -> result A) (l : list B) (a : A)
  : result A :=
  match l with
  | [] => Ok a
  | x :: l' => let? a' := f a x in rfold f l' a'
  end.

(** ** Python floats *)

Definition float : Type := spec_float.

Definition prec : Z := 53.
Definition emax : Z := 1024.

Definition float_of_Z (z : Z) : float := binary_normalize prec emax z 0 false.

Definition float_lt (x y : float) : bool := SFltb x y.
Definition float_le (x y : float) : bool := SFleb x y.

Definition float_is_zero (x : float) : bool :=
  match x with
  | S754_zero _ => true
  | _ => false
  end.

(** [x / y] on floats: [ZeroDivisionError] on a zero divisor, the IEEE
    quotient otherwise. *)
Definition float_truediv (x y : float) : result float :=
  if float_is_zero y then Raise ZeroDivisionError
  else Ok (SFdiv prec emax x y).

(** The C library.  CPython computes [x ** 2] on floats with the
    platform's [pow], which need not round correctly: it is taken to return
    one of the two floats next to the exact square (the square itself when it
    is a float).  Which of the two it returns for a given [x] is the
    library's matter and a parameter here. *)
Record libm : Type := {
  pow_rounds_up : float -> bool
}.

(** The two libraries that always round one way. *)
Definition rounds_down : libm := {| pow_rounds_up := fun _ => false |}.
Definition rounds_up : libm := {| pow_rounds_up := fun _ => true |}.

Definition round_toward (up : bool) (mx : Z) (lx : location) : Z :=
  match lx with
  | loc_Exact => mx
  | loc_Inexact _ => if up then mx + 1 else mx
  end.

(** [binary_round_aux] of the library, with the rounding to the nearest
    replaced by the rounding down or up. *)
Definition binary_round_toward (up sx : bool) (mx ex : Z) (lx : location)
  : float :=
  let '(mrs', e') := shr_fexp prec emax mx ex lx in
  let '(mrs'', e'') :=
    shr_fexp prec emax
      (round_toward up (shr_m mrs') (loc_of_shr_record mrs')) e' loc_Exact in
  match shr_m mrs'' with
  | Z0 => S754_zero sx
  | Zpos m =>
      if e'' <=? emax - prec then S754_finite sx m e'' else S754_infinity sx
  | _ => S754_nan
  end.

(** [x ** 2] on a float.  CPython answers the special values itself, hands
    the finite case to [pow] and turns an overflow to infinity into
    [OverflowError]; an underflow to zero is returned as zero. *)
Definition float_pow2 (lm : libm) (x : float) : result float :=
  match x with
  | S754_nan => Ok S754_nan
  | S754_infinity _ => Ok (S754_infinity false)
  | S754_zero _ => Ok (S754_zero false)
  | S754_finite _ mx ex =>
      match binary_round_toward (pow_rounds_up lm x) false
              (Zpos (mx * mx)) (ex + ex) loc_Exact with
      | S754_infinity _ => Raise OverflowError
      | r => Ok r
      end
  end.

(** Quotient of [a] by [b > 0] rounded to the nearest integer, ties to the
    even one. *)
Definition div_half_even (a b : Z) : Z :=
  let q := a / b in
  match 2 * (a mod b) ?= b with
  | Lt => q
  | Gt => q + 1
  | Eq => if Z.even q then q else q + 1
  end.

(** [round(x, 2)]: CPython prints [x] with two digits after the point,
    correctly rounded from the exact binary value (ties to even), and reads
    the decimal string back, again correctly rounded.  With [n] the rounded
    number of hundredths, the result is the float nearest to [n / 100];
    infinities and NaN round to themselves and the sign of a zero is kept. *)
Definition round2 (x : float) : float :=
  match x with
  | S754_finite s m e =>
      let n := match e with
               | Zneg p => div_half_even (Zpos m * 100) (2 ^ Zpos p)
               | _ => Zpos m * 100 * 2 ^ e
               end in
      match n with
      | Zpos p => SFdiv prec emax (S754_finite s p 0) (S754_finite false 100 0)
      | _ => S754_zero s
      end
  | _ => x
  end.

(** The float literals of [Patient.verdict].  [25] is an [int] in the
    source; CPython compares a float with a small [int] by converting the
    [int] to a float first. *)
Definition lit_18_5 : float :=
  Eval vm_compute in SFdiv prec emax (float_of_Z 185) (float_of_Z 10).
Definition lit_24_9 : float :=
  Eval vm_compute in SFdiv prec emax (float_of_Z 249) (float_of_Z 10).
Definition lit_25 : float :=
  Eval vm_compute in float_of_Z 25.
Definition lit_29_9 : float :=
  Eval vm_compute in SFdiv prec emax (float_of_Z 299) (float_of_Z 10).
Definition lit_0 : float := S754_zero false.

(** Three-way comparison of an [int] with a [float]; Python compares the
    exact values.  [None] for NaN. *)
Definition int_float_compare (z : Z) (x : float) : option comparison :=
  match x with
  | S754_nan => None
  | S754_infinity s => Some (if s then Gt else Lt)
  | S754_zero _ => Some (z ?= 0)
  | S754_finite s m e =>
      match e with
      | Zneg p => Some (z * 2 ^ Zpos p ?= cond_Zopp s (Zpos m))
      | _ => Some (z ?= cond_Zopp s (Zpos m * 2 ^ e))
      end
  end.

(** ** JSON values

    What [json.load] returns and [json.dump] accepts.  [JObj] is a Python
    [dict] with string keys. *)

Inductive json : Type :=
| JNull
| JBool (b : bool)
| JInt (z : Z)
| JFloat (f : float)
| JStr (s : string)
| JList (l : list json)
| JObj (o : list (string * json)).

Definition dict : Type := list (string * json).

Fixpoint dict_get (o : dict) (k : string) : option json :=
  match o with
  | [] => None
  | (k', v) :: o' => if String.eqb k' k then Some v else dict_get o' k
  end.

Definition dict_has (o : dict) (k : string) : bool :=
  match dict_get o k with
  | Some _ => true
  | None => false
  end.

(** [o[k] = v]: an existing key keeps its place, a new key goes last. *)
Fixpoint dict_set (o : dict) (k : string) (v : json) : dict :=
  match o with
  | [] => [(k, v)]
  | (k', v') :: o' =>
      if String.eqb k' k then (k, v) :: o' else (k', v') :: dict_set o' k v
  end.

(** [del o[k]]. *)
Fixpoint dict_del (o : dict) (k : string) : dict :=
  match o with
  | [] => []
  | (k', v') :: o' =>
      if String.eqb k' k then dict_del o' k else (k', v') :: dict_del o' k
  end.

Definition dict_keys (o : dict) : list string := map fst o.

(** Numbers: [bool] is a subclass of [int] in Python. *)
Inductive pynum : Type :=
| NInt (z : Z)
| NFloat (f : float).

Definition as_num (j : json) : option pynum :=
  match j with
  | JBool b => Some (NInt (Z.b2z b))
  | JInt z => Some (NInt z)
  | JFloat f => Some (NFloat f)
  | _ => None
  end.

Definition num_compare (a b : pynum) : option comparison :=
  match a, b with
  | NInt x, NInt y => Some (x ?= y)
  | NFloat x, NFloat y => SFcompare x y
  | NInt x, NFloat y => int_float_compare x y
  | NFloat x, NInt y => option_map CompOpp (int_float_compare y x)
  end.

Definition is_Eq (c : option comparison) : bool :=
  match c with
  | Some Eq => true
  | _ => false
  end.

Definition is_Lt (c : option comparison) : bool :=
  match c with
  | Some Lt => true
  | _ => false
  end.

(** Equality as the containers ask it, [PyObject_RichCompareBool(a, b,
    Py_EQ)]: one and the same object is equal to itself, two objects are
    compared with [==].  Among loaded values the one that [==] does not find
    equal to itself is NaN, and [json.load] returns one and the same object
    for every [NaN] of the text; so inside a container two NaN are equal.
    Numbers compare by value across [bool], [int] and [float]; lists element
    by element; dicts as mappings, whatever the order of their keys; values
    of different kinds are unequal. *)
Fixpoint same_or_eq (a b : json) {struct a} : bool :=
  match a, b with
  | JNull, JNull => true
  | JStr s, JStr t => String.eqb s t
  | JList l, JList m =>
      (fix all2 (l : list json) (m : list json) {struct l} : bool :=
         match l, m with
         | [], [] => true
         | x :: l', y :: m' => same_or_eq x y && all2 l' m'
         | _, _ => false
         end) l m
  | JObj o, JObj p =>
      (List.length o =? List.length p)%nat &&
      (fix sub (o : list (string * json)) {struct o} : bool :=
         match o with
         | [] => true
         | (k, v) :: o' =>
             match dict_get p k with
             | Some w => same_or_eq v w && sub o'
             | None => false
             end
         end) o
  | JFloat S754_nan, JFloat S754_nan => true
  | _, _ =>
      match as_num a, as_num b with
      | Some x, Some y => is_Eq (num_compare x y)
      | _, _ => false
      end
  end.

(** [a == b] on loaded values: the operator itself does not look at the
    identity of its operands, so NaN is not equal to NaN; the elements of
    two containers are compared as above. *)
Definition py_eq (a b : json) : bool :=
  match a, b with
  | JFloat S754_nan, JFloat S754_nan => false
  | _, _ => same_or_eq a b
  end.

Definition ascii_lt (a b : ascii) : bool :=
  (nat_of_ascii a <? nat_of_ascii b)%nat.

(** [s < t] on strings: lexicographic, by code point (here, by byte of the
    UTF-8 text, which gives the same order). *)
Fixpoint str_lt (s t : string) : bool :=
  match s, t with
  | _, EmptyString => false
  | EmptyString, String _ _ => true
  | String a s', String b t' =>
      if Ascii.eqb a b then str_lt s' t' else ascii_lt a b
  end.

(** [a < b] on loaded values: numbers with numbers, strings with strings,
    lists with lists (at the first pair of elements that are neither the
    same object nor equal, else by length).  [None] is Python's
    [NotImplemented]: the operands are [None], dicts or of mixed kinds, and
    the comparison raises [TypeError]. *)
Fixpoint py_lt (a b : json) {struct a} : option bool :=
  match a, b with
  | JStr s, JStr t => Some (str_lt s t)
  | JList l, JList m =>
      (fix lex (l : list json) (m : list json) {struct l} : option bool :=
         match l, m with
         | [], [] => Some false
         | [], _ :: _ => Some true
         | _ :: _, [] => Some false
         | x :: l', y :: m' =>
             if same_or_eq x y then lex l' m' else py_lt x y
         end) l m
  | _, _ =>
      match as_num a, as_num b with
      | Some x, Some y => Some (is_Lt (num_compare x y))
      | _, _ => None
      end
  end.

Definition less_than (a b : json) : result bool :=
  match py_lt a b with
  | Some r => Ok r
  | None => Raise TypeError
  end.

(** Iteration, as [for x in v] and [sorted(v)] see it: the elements of a
    list, the keys of a dict, the characters of a string. *)
Fixpoint str_chars (s : string) : list json :=
  match s with
  | EmptyString => []
  | String c s' => JStr (String c EmptyString) :: str_chars s'
  end.

Definition py_iter (v : json) : result (list json) :=
  match v with
  | JList l => Ok l
  | JObj o => Ok (map JStr (dict_keys o))
  | JStr s => Ok (str_chars s)
  | _ => Raise TypeError
  end.

(** [v[k]] with a string [k]. *)
Definition py_getitem (v : json) (k : string) : result json :=
  match v with
  | JObj o =>
      match dict_get o k with
      | Some x => Ok x
      | None => Raise KeyError
      end
  | _ => Raise TypeError
  end.

(** [v[k] = x] with a string [k]. *)
Definition py_setitem (v : json) (k : string) (x : json) : result json :=
  match v with
  | JObj o => Ok (JObj (dict_set o k x))
  | _ => Raise TypeError
  end.

(** [del v[k]] with a string [k]. *)
Definition py_delitem (v : json) (k : string) : result json :=
  match v with
  | JObj o => if dict_has o k then Ok (JObj (dict_del o k)) else Raise KeyError
  | _ => Raise TypeError
  end.

Definition is_substring (s t : string) : bool :=
  match String.index 0 s t with
  | Some _ => true
  | None => false
  end.

(** [k in v] with a string [k]: a key of a dict, an element of a list, a
    substring of a string. *)
Definition py_contains (v : json) (k : string) : result bool :=
  match v with
  | JObj o => Ok (dict_has o k)
  | JList l => Ok (existsb (fun x => py_eq x (JStr k)) l)
  | JStr t => Ok (is_substring k t)
  | _ => Raise TypeError
  end.

(** [v.get(k, d)]: only a dict has the method. *)
Definition py_get (v : json) (k : string) (d : json) : result json :=
  match v with
  | JObj o =>
      match dict_get o k with
      | Some x => Ok x
      | None => Ok d
      end
  | _ => Raise AttributeError
  end.

(** [sorted(v, key=key, reverse=reverse)].  The keys are computed first, one
    per element and in order.  The sort is stable and only asks [<] of two
    keys; with [reverse] CPython reverses the list, sorts it and reverses the
    outcome, which keeps equal keys in their first order.  The sort is written
    as an insertion sort: on keys that [<] orders totally every stable sort
    returns the same list, and keys that [<] cannot compare raise
    [TypeError].  On keys that [<] compares without ordering them (a NaN
    among numbers) the list CPython's merge sort returns depends on the
    comparisons it happens to make and may differ from the one below: the
    definition speaks for the program on keys without NaN only. *)
Fixpoint insert_by_key (x : json * json) (l : list (json * json))
  : result (list (json * json)) :=
  match l with
  | [] => Ok [x]
  | y :: l' =>
      let? b := less_than (fst y) (fst x) in
      if b
      then let? r := insert_by_key x l' in Ok (y :: r)
      else Ok (x :: y :: l')
  end.

Fixpoint sort_by_key (l : list (json * json)) : result (list (json * json)) :=
  match l with
  | [] => Ok []
  | x :: l' => let? r := sort_by_key l' in insert_by_key x r
  end.

Definition sorted (v : json) (key : json -> result json) (reverse : bool)
  : result (list json) :=
  let? items := py_iter v in
  let? keyed := rmap (fun x => let? k := key x in Ok (k, x)) items in
  let? r := (if reverse
             then let? r' := sort_by_key (rev keyed) in Ok (rev r')
             else sort_by_key keyed) in
  Ok (map snd r).

(** ** The Pydantic models *)

(** What Pydantic makes of a value that is not of the field's own type (an
    integer or a numeric string given for a [float] field, a float without
    fraction given for an [int] field, ...) is Pydantic's conversion table
    and not part of the repository: it is a parameter, [lax], of the
    validation below.  A value of the field's own type is taken as it is. *)
Record lax : Type := {
  lax_int : json -> option Z;
  lax_float : json -> option float
}.

(** The table that converts nothing. *)
Definition strict : lax :=
  {| lax_int := fun _ => None; lax_float := fun _ => None |}.

Definition validate_str (v : json) : option string :=
  match v with
  | JStr s => Some s
  | _ => None
  end.

Definition validate_int (c : lax) (v : json) : option Z :=
  match v with
  | JInt z => Some z
  | _ => lax_int c v
  end.

Definition validate_float (c : lax) (v : json) : option float :=
  match v with
  | JFloat f => Some f
  | _ => lax_float c v
  end.

(** A required field of the keyword arguments, through its validator. *)
Definition field {A : Type} (validate : json -> option A) (kwargs : dict)
  (k : string) : result A :=
  match dict_get kwargs k with
  | Some v =>
      match validate v with
      | Some a => Ok a
      | None => Raise ValidationError
      end
  | None => Raise ValidationError
  end.

Definition check (b : bool) : result unit :=
  if b then Ok tt else Raise ValidationError.

Module Patient.

Record t : Type := mk {
  id : string;
  name : string;
  city : string;
  age : Z;
  gender : string;
  height : float;
  weight : float
}.

(** The constraints of the fields: [gt=0, lt=120] on [age], [gt=0] on
    [height] and [weight].  [gender] is an [Annotated[str, Literal[...]]]:
    its type is [str] and the [Literal] is inert metadata. *)
Definition constraints (self : t) : bool :=
  (0 <? age self) && (age self <? 120)
  && float_lt lit_0 (height self) && float_lt lit_0 (weight self).

(** The constructor, called with the entries of [kwargs] as keyword
    arguments: every field is required, keys that are no field are
    ignored. *)
Definition init (c : lax) (kwargs : dict) : result t :=
  let? id := field validate_str kwargs "id" in
  let? name := field validate_str kwargs "name" in
  let? city := field validate_str kwargs "city" in
  let? age := field (validate_int c) kwargs "age" in
  let? gender := field validate_str kwargs "gender" in
  let? height := field (validate_float c) kwargs "height" in
  let? weight := field (validate_float c) kwargs "weight" in
  let self := mk id name city age gender height weight in
  let? _ := check (constraints self) in
  Ok self.

Definition bmi (lm : libm) (self : t) : result float :=
  let? h2 := float_pow2 lm (height self) in
  let? bmi := float_truediv (weight self) h2 in
  Ok (round2 bmi).

Definition verdict (lm : libm) (self : t) : result string :=
  let? b1 := bmi lm self in
  if float_lt b1 lit_18_5 then Ok "Underweight"
  else
    let? b2 := bmi lm self in
    if float_le lit_18_5 b2 && float_lt b2 lit_24_9 then Ok "Normal weight"
    else
      let? b3 := bmi lm self in
      if float_le lit_25 b3 && float_lt b3 lit_29_9 then Ok "Overweight"
      else Ok "Obese".

(** [self.model_dump(exclude=...)] as both call sites use it, with a list
    that holds "id" and with the string "id": every field but [id], in the
    order of the class, then the computed fields, which are evaluated
    now. *)
Definition model_dump_exclude_id (lm : libm) (self : t) : result dict :=
  let? b := bmi lm self in
  let? v := verdict lm self in
  Ok [("name", JStr (name self));
      ("city", JStr (city self));
      ("age", JInt (age self));
      ("gender", JStr (gender self));
      ("height", JFloat (height self));
      ("weight", JFloat (weight self));
      ("bmi", JFloat b);
      ("verdict", JStr v)].

End Patient.

Module PatientUpdate.

(** Every field is [Optional] with default [None] and the model remembers
    which fields the payload set: the outer [option] is "set by the
    payload", the inner one is the value, [None] for an explicit null. *)
Record t : Type := mk {
  name : option (option string);
  city : option (option string);
  age : option (option Z);
  gender : option (option string);
  height : option (option float);
  weight : option (option float)
}.

Definition dump_field {A : Type} (k : string) (inj : A -> json)
  (f : option (option A)) : dict :=
  match f with
  | None => []
  | Some None => [(k, JNull)]
  | Some (Some a) => [(k, inj a)]
  end.

(** [self.model_dump(exclude_unset=True)]. *)
Definition model_dump_exclude_unset (self : t) : dict :=
  (dump_field "name" JStr (name self)
   ++ dump_field "city" JStr (city self)
   ++ dump_field "age" JInt (age self)
   ++ dump_field "gender" JStr (gender self)
   ++ dump_field "height" JFloat (height self)
   ++ dump_field "weight" JFloat (weight self))%list.

End PatientUpdate.

(** ** The file and the handlers' monad *)

(** What [open] and [json.load] can raise on a file that is there, besides
    the error of a text that is no JSON: no right to read, bytes that are no
    text, an integer literal beyond the limit of the conversion. *)
Inductive read_error : Type :=
| Denied
| NotText
| HugeNumber.

Definition read_exn (e : read_error) : exn :=
  match e with
  | Denied => PermissionError
  | NotText => UnicodeDecodeError
  | HugeNumber => ValueError
  end.

(** The file: absent; there, but its text is no JSON ([Garbled], also what a
    write that was cut short leaves); there, but not to be read; holding a
    value; holding a value that may be read and not written
    ([WriteProtected]); holding a value on a device with no room left
    ([Unwritable]), where a write empties the file and then fails. *)
Inductive file : Type :=
| Absent
| Garbled
| Unreadable (e : read_error)
| Holds (data : json)
| WriteProtected (data : json)
| Unwritable (data : json).

(** [saved] is the trace of the values [save_data] opened the file for,
    latest first; the program has no such variable, the trace is there to
    speak about the writes. *)
Record world : Type := {
  patients_json : file;
  saved : list json
}.

Definition M (A : Type) : Type := world -> result A * world.

Definition ret {A : Type} (a : A) : M A := fun w => (Ok a, w).

Definition raise {A : Type} (e : exn) : M A := fun w => (Raise e, w).

Definition bind {A B : Type} (m : M A) (k : A -> M B) : M B :=
  fun w =>
    match m w with
    | (Ok a, w') => k a w'
    | (Raise e, w') => (Raise e, w')
    end.

Definition lift {A : Type} (r : result A) : M A := fun w => (r, w).

Notation "x <- m ;; k" := (bind m (fun x => k))
  (at level 61, m at next level, right associativity).

(** A dumped value reads back as itself: [json.dump] writes floats so that
    they read back exactly, and writes [NaN] and [Infinity], which
    [json.load] accepts. *)
Definition load_data : M json :=
  fun w =>
    match patients_json w with
    | Holds data => (Ok data, w)
    | WriteProtected data => (Ok data, w)
    | Unwritable data => (Ok data, w)
    | Absent => (Raise FileNotFoundError, w)
    | Garbled => (Raise JSONDecodeError, w)
    | Unreadable e => (Raise (read_exn e), w)
    end.

(** [open(..., "w")] empties the file and [json.dump] writes the text.  On
    a file that may not be written [open] raises [PermissionError] and
    nothing is touched; on a device with no room the dump raises [OSError]
    and the file is left cut short. *)
Definition save_data (data : json) : M unit :=
  fun w =>
    match patients_json w with
    | WriteProtected _ => (Raise PermissionError, w)
    | Unwritable _ =>
        (Raise OSError,
         {| patients_json := Garbled; saved := data :: saved w |})
    | _ => (Ok tt, {| patients_json := Holds data; saved := data :: saved w |})
    end.

(** ** The handlers *)

(** What a handler returns: a plain value, which FastAPI sends with status
    200, or a [JSONResponse]. *)
Inductive response : Type :=
| Return (v : json)
| JSONResponse (status_code : Z) (content : json).

(** A [for] loop whose body may [return]: the body yields [Some v] to return
    [v], [None] to go on with the next element; after the last element the
    function falls off its end. *)
Fixpoint for_return {A : Type} (body : json -> result (option A))
  (items : list json) : result (option A) :=
  match items with
  | [] => Ok None
  | x :: rest =>
      let? r := body x in
      match r with
      | Some a => Ok (Some a)
      | None => for_return body rest
      end
  end.

Definition view : M response :=
  data <- load_data ;;
  ret (Return data).

(** [patient["id"] == patient_id] with an [int] on the right. *)
Definition eq_int (v : json) (n : Z) : bool := py_eq v (JInt n).

Definition view_patient (patient_id : Z) : M response :=
  data <- load_data ;;
  items <- lift (py_iter data) ;;
  r <- lift (for_return
               (fun patient =>
                  let? i := py_getitem patient "id" in
                  if eq_int i patient_id then Ok (Some patient)
                  else Raise (HTTPException 404 "Patient not found"))
               items) ;;
  match r with
  | Some patient => ret (Return patient)
  | None => ret (Return JNull)
  end.

Definition valid_fields : list string := ["gender"; "age"].

Definition str_in (s : string) (l : list string) : bool :=
  existsb (String.eqb s) l.

Definition sort_patients (sort_by order : string) : M response :=
  if negb (str_in sort_by valid_fields)
  then raise (HTTPException 400
                "Invalid sort field. Valid fields are: ['gender', 'age']")
  else if negb (str_in order ["asc"; "desc"])
  then raise (HTTPException 400
                "Invalid order. Valid orders are: 'asc' or 'desc' ")
  else
    data <- load_data ;;
    let sort_order := if String.eqb order "desc" then true else false in
    sorted_data <- lift (sorted data (fun x => py_get x sort_by (JInt 0))
                           sort_order) ;;
    ret (Return (JList sorted_data)).

Definition create_patient (lm : libm) (patient : Patient.t) : M response :=
  data <- load_data ;;
  present <- lift (py_contains data (Patient.id patient)) ;;
  if present
  then raise (HTTPException 400 "Patient already exists")
  else
    dumped <- lift (Patient.model_dump_exclude_id lm patient) ;;
    data <- lift (py_setitem data (Patient.id patient) (JObj dumped)) ;;
    _ <- save_data data ;;
    ret (JSONResponse 201
           (JObj [("message", JStr "Patient created sucessfully!")])).

(** [existing_patient_info] is the very dict stored in [data]; the writes to
    it are not written through to [data] here, since [data] is either thrown
    away by an exception or gets the entry replaced before it is saved. *)
Definition update_patient (lm : libm) (c : lax) (patient_id : string)
  (patient_update : PatientUpdate.t) : M response :=
  data <- load_data ;;
  present <- lift (py_contains data patient_id) ;;
  if negb present
  then raise (HTTPException 404 "Patient not found")
  else
    existing_patient_info <- lift (py_getitem data patient_id) ;;
    let updated_patient_info :=
      PatientUpdate.model_dump_exclude_unset patient_update in
    existing_patient_info <-
      lift (rfold (fun info kv => py_setitem info (fst kv) (snd kv))
              updated_patient_info existing_patient_info) ;;
    existing_patient_info <-
      lift (py_setitem existing_patient_info "id" (JStr patient_id)) ;;
    patient_pydantic_obj <-
      lift (match existing_patient_info with
            | JObj kwargs => Patient.init c kwargs
            | _ => Raise TypeError
            end) ;;
    existing_patient_info <-
      lift (Patient.model_dump_exclude_id lm patient_pydantic_obj) ;;
    data <- lift (py_setitem data patient_id (JObj existing_patient_info)) ;;
    _ <- save_data data ;;
    ret (JSONResponse 200
           (JObj [("message", JStr "Patient details updated successfully!")])).

Definition delete_patient (patient_id : string) : M response :=
  data <- load_data ;;
  present <- lift (py_contains data patient_id) ;;
  if negb present
  then raise (HTTPException 404 "Patient not found")
  else
    data <- lift (py_delitem data patient_id) ;;
    _ <- save_data data ;;
    ret (JSONResponse 200
           (JObj [("message", JStr "Patient deleted successfully!")])).

(** The two static routes. *)
Definition hello : M response :=
  ret (Return (JObj [("message", JStr "Patient Management System API")])).

Definition about_message : string :=
  "A fully functional API to manage your patients records.".

Definition about : M response :=
  ret (Return (JObj [("message", JStr about_message)])).

(** ** Vocabulary of the statements *)

(** The world after [save_data data]. *)
Definition written (data : json) (w : world) : world :=
  {| patients_json := Holds data; saved := data :: saved w |}.

(** What a read finds in the file, whether or not the file can be
    written. *)
Definition contents (f : file) : option json :=
  match f with
  | Holds data | WriteProtected data | Unwritable data => Some data
  | _ => None
  end.

(** A computation that leaves the world as it found it. *)
Definition read_only {A : Type} (m : M A) : Prop := forall w, snd (m w) = w.

(** The record the file holds under an id, when the file holds a mapping. *)
Definition persisted_record (w : world) (k : string) : option json :=
  match patients_json w with
  | Holds (JObj data) => dict_get data k
  | _ => None
  end.

(** The merge of [update_patient]: the entries of the payload's dump, set
    one after the other on the stored dict. *)
Definition overlay (o : dict) (l : dict) : dict :=
  fold_left (fun o kv => dict_set o (fst kv) (snd kv)) l o.

(** What the merged dict holds under a field's name: the payload's value if
    the payload set the field, the stored value otherwise. *)
Definition merged_value {A : Type} (inj : A -> json) (f : option (option A))
  (stored : option json) : option json :=
  match f with
  | None => stored
  | Some None => Some JNull
  | Some (Some a) => Some (inj a)
  end.

(** The new record holds under [k] what the stored record held there, as
    the field's validator reads it. *)
Definition kept {A : Type} (validate : json -> option A) (inj : A -> json)
  (k : string) (stored new : dict) : Prop :=
  exists v a,
    dict_get stored k = Some v /\ validate v = Some a /\
    dict_get new k = Some (inj a).

(** One field of a partial update: a value the payload supplies is the new
    value, a field the payload leaves out is kept. *)
Definition field_overlaid {A : Type} (validate : json -> option A)
  (inj : A -> json) (f : option (option A)) (k : string)
  (stored new : dict) : Prop :=
  (forall a, f = Some (Some a) -> dict_get new k = Some (inj a))
  /\ (f = None -> kept validate inj k stored new).

(** The payload that sets [age] and nothing else. *)
Definition only_age (a : Z) : PatientUpdate.t :=
  PatientUpdate.mk None None (Some (Some a)) None None None.

(** The body mass index in the words of the specification,
    [round(weight / height ** 2, 2)], the operators being Python's on
    floats. *)
Definition spec_bmi (lm : libm) (height weight : float) : result float :=
  let? square := float_pow2 lm height in
  let? quotient := float_truediv weight square in
  Ok (round2 quotient).

(** The four bands in the words of the specification: Underweight if
    bmi < 18.5; Normal weight if 18.5 <= bmi < 24.9; Overweight if
    25 <= bmi < 29.9; Obese otherwise. *)
Definition four_bands (bmi : float) : string :=
  if float_lt bmi lit_18_5 then "Underweight"
  else if float_le lit_18_5 bmi && float_lt bmi lit_24_9 then "Normal weight"
  else if float_le lit_25 bmi && float_lt bmi lit_29_9 then "Overweight"
  else "Obese".

(** A record whose [bmi] is the formula of the specification on the
    record's own [height] and [weight], and whose [verdict] is the band of
    that [bmi]. *)
Definition derived_fields_fresh (lm : libm) (r : dict) : Prop :=
  exists h wt b,
    dict_get r "height" = Some (JFloat h) /\
    dict_get r "weight" = Some (JFloat wt) /\
    spec_bmi lm h wt = Ok b /\
    dict_get r "bmi" = Some (JFloat b) /\
    dict_get r "verdict" = Some (JStr (four_bands b)).

(** A create or an update of the record [key] that returned its response. *)
Definition successful_write (lm : libm) (c : lax) (key : string)
  (w w' : world) : Prop :=
  (exists p resp,
      Patient.id p = key /\ create_patient lm p w = (Ok resp, w'))
  \/ (exists u resp, update_patient lm c key u w = (Ok resp, w')).

(** What a successful construction says about the keyword arguments. *)
Record init_spec (c : lax) (kwargs : dict) (p : Patient.t) : Prop := {
  init_id : dict_get kwargs "id" = Some (JStr (Patient.id p));
  init_name : dict_get kwargs "name" = Some (JStr (Patient.name p));
  init_city : dict_get kwargs "city" = Some (JStr (Patient.city p));
  init_age : exists v, dict_get kwargs "age" = Some v
                       /\ validate_int c v = Some (Patient.age p);
  init_gender : dict_get kwargs "gender" = Some (JStr (Patient.gender p));
  init_height : exists v, dict_get kwargs "height" = Some v
                          /\ validate_float c v = Some (Patient.height p);
  init_weight : exists v, dict_get kwargs "weight" = Some v
                          /\ validate_float c v = Some (Patient.weight p);
  init_constraints : Patient.constraints p = true
}.

(** The stable insertion sort of [sort_by_key], on integer keys. *)
Section StableSort.

Context {A : Type}.
Variable key : A -> Z.

Fixpoint insert_stable (x : A) (l : list A) : list A :=
  match l with
  | [] => [x]
  | y :: l' =>
      if key y <? key x then y :: insert_stable x l' else x :: y :: l'
  end.

Fixpoint sort_stable (l : list A) : list A :=
  match l with
  | [] => []
  | x :: l' => insert_stable x (sort_stable l')
  end.

Definition ascending (a b : A) : Prop := key a <= key b.
Definition descending (a b : A) : Prop := key b <= key a.

(** The elements with key [z], in the order of the list. *)
Definition with_key (z : Z) (l : list A) : list A :=
  filter (fun x => key x =? z) l.

End StableSort.

(** The sort key of a record, [x.get(sort_by, 0)], when it is an [int]. *)
Definition int_key (sort_by : string) (x : json) : Z :=
  match py_get x sort_by (JInt 0) with
  | Ok (JInt z) => z
  | _ => 0
  end.

Definition has_int_key (sort_by : string) (x : json) : Prop :=
  exists z, py_get x sort_by (JInt 0) = Ok (JInt z).

(** ** Sample data *)

Definition f_1_75 : float :=
  Eval vm_compute in SFdiv prec emax (float_of_Z 175) (float_of_Z 100).
Definition f_70 : float := Eval vm_compute in float_of_Z 70.
Definition f_90 : float := Eval vm_compute in float_of_Z 90.
Definition f_22_86 : float :=
  Eval vm_compute in SFdiv prec emax (float_of_Z 2286) (float_of_Z 100).
Definition f_29_39 : float :=
  Eval vm_compute in SFdiv prec emax (float_of_Z 2939) (float_of_Z 100).

(** [2.759] and [140.785438095], [1e200] and [1 / 1e200]. *)
Definition f_2_759 : float :=
  Eval vm_compute in SFdiv prec emax (float_of_Z 2759) (float_of_Z 1000).
Definition f_140_785 : float :=
  Eval vm_compute in
    SFdiv prec emax (float_of_Z 140785438095) (float_of_Z 1000000000).
Definition f_1e200 : float := Eval vm_compute in float_of_Z (10 ^ 200).
Definition f_1e200_inv : float :=
  Eval vm_compute in SFdiv prec emax (float_of_Z 1) (float_of_Z (10 ^ 200)).

(** A record with the given height and weight. *)
Definition patient_of (height weight : float) : Patient.t :=
  Patient.mk "P001" "Asha" "Pune" 30 "Female" height weight.

(** The fields of a record as [create_patient] writes them. *)
Definition sample_fields (age : Z) : dict :=
  [("name", JStr "Asha"); ("city", JStr "Pune"); ("age", JInt age);
   ("gender", JStr "Female"); ("height", JFloat f_1_75);
   ("weight", JFloat f_70); ("bmi", JFloat f_22_86);
   ("verdict", JStr "Normal weight")].

Definition sample_patient (id : string) (age : Z) : Patient.t :=
  Patient.mk id "Asha" "Pune" age "Female" f_1_75 f_70.

Definition on_disk (data : json) : world :=
  {| patients_json := Holds data; saved := [] |}.

Definition no_file : world := {| patients_json := Absent; saved := [] |}.

(** The file holds [data] and the device has no room for a write. *)
Definition no_room (data : json) : world :=
  {| patients_json := Unwritable data; saved := [] |}.

(** The file holds [data] and may not be written. *)
Definition protected (data : json) : world :=
  {| patients_json := WriteProtected data; saved := [] |}.

(** A store as [create_patient] writes it: a mapping from id to fields. *)
Definition store_mapping : json :=
  JObj [("P001", JObj (sample_fields 30)); ("P002", JObj (sample_fields 20));
        ("P003", JObj (sample_fields 25))].

(** The same three records as a list. *)
Definition store_list : json :=
  JList [JObj (sample_fields 30); JObj (sample_fields 20);
         JObj (sample_fields 25)].

(** A list of records that carry their id as an integer field. *)
Definition store_with_ids : json :=
  JList [JObj (("id", JInt 1) :: sample_fields 30);
         JObj (("id", JInt 2) :: sample_fields 20)].

(** Mappings whose ids read as integers in a path. *)
Definition store_one : json := JObj [("1", JObj (sample_fields 30))].
Definition store_two : json :=
  JObj [("1", JObj (sample_fields 30)); ("2", JObj (sample_fields 20))].

Definition new_weight (x : float) : PatientUpdate.t :=
  PatientUpdate.mk None None None None None (Some (Some x)).

Definition deleted : response :=
  JSONResponse 200 (JObj [("message", JStr "Patient deleted successfully!")]).

(** ** Vocabulary and sample data of the further properties *)

(** The three requests that write, and the id each one is about. *)
Inductive mutation : Type :=
| Create (patient : Patient.t)
| Update (patient_id : string) (patient_update : PatientUpdate.t)
| Delete (patient_id : string).

Definition run (lm : libm) (c : lax) (m : mutation) : M response :=
  match m with
  | Create patient => create_patient lm patient
  | Update patient_id patient_update =>
      update_patient lm c patient_id patient_update
  | Delete patient_id => delete_patient patient_id
  end.

Definition target (m : mutation) : string :=
  match m with
  | Create patient => Patient.id patient
  | Update patient_id _ => patient_id
  | Delete patient_id => patient_id
  end.

(** The ids of the file's mapping, in its order. *)
Definition store_keys (w : world) : option (list string) :=
  match patients_json w with
  | Holds (JObj data) => Some (dict_keys data)
  | _ => None
  end.

(** The ids a mutation leaves, from the ids it found. *)
Definition keys_after (m : mutation) (ks : list string) : list string :=
  match m with
  | Create patient => ks ++ [Patient.id patient]
  | Update _ _ => ks
  | Delete patient_id => filter (fun k => negb (String.eqb k patient_id)) ks
  end.

Definition created : response :=
  JSONResponse 201 (JObj [("message", JStr "Patient created sucessfully!")]).

Definition updated : response :=
  JSONResponse 200
    (JObj [("message", JStr "Patient details updated successfully!")]).

Definition not_found : exn := HTTPException 404 "Patient not found".

(** The stored record holds the six fields of [p], each as a JSON value of
    the field's own type.  It may hold other keys too. *)
Record holds_fields (stored : dict) (p : Patient.t) : Prop := {
  holds_name : dict_get stored "name" = Some (JStr (Patient.name p));
  holds_city : dict_get stored "city" = Some (JStr (Patient.city p));
  holds_age : dict_get stored "age" = Some (JInt (Patient.age p));
  holds_gender : dict_get stored "gender" = Some (JStr (Patient.gender p));
  holds_height : dict_get stored "height" = Some (JFloat (Patient.height p));
  holds_weight : dict_get stored "weight" = Some (JFloat (Patient.weight p))
}.

(** The value a payload field supplies, else the given one. *)
Definition supplied {A : Type} (f : option (option A)) (d : A) : A :=
  match f with
  | Some (Some a) => a
  | _ => d
  end.

Definition is_null {A : Type} (f : option (option A)) : bool :=
  match f with
  | Some None => true
  | _ => false
  end.

(** No field of the payload is an explicit null. *)
Definition no_nulls (u : PatientUpdate.t) : bool :=
  negb (is_null (PatientUpdate.name u)) && negb (is_null (PatientUpdate.city u))
  && negb (is_null (PatientUpdate.age u))
  && negb (is_null (PatientUpdate.gender u))
  && negb (is_null (PatientUpdate.height u))
  && negb (is_null (PatientUpdate.weight u)).

(** The record [p] with the fields the payload supplies, under the id of
    the path. *)
Definition apply_update (patient_id : string) (u : PatientUpdate.t)
  (p : Patient.t) : Patient.t :=
  Patient.mk patient_id
    (supplied (PatientUpdate.name u) (Patient.name p))
    (supplied (PatientUpdate.city u) (Patient.city p))
    (supplied (PatientUpdate.age u) (Patient.age p))
    (supplied (PatientUpdate.gender u) (Patient.gender p))
    (supplied (PatientUpdate.height u) (Patient.height p))
    (supplied (PatientUpdate.weight u) (Patient.weight p)).

(** The keys of a record as the model dumps it. *)
Definition dumped_keys : list string :=
  ["name"; "city"; "age"; "gender"; "height"; "weight"; "bmi"; "verdict"].

(** The stable insertion sort of [sort_by_key] again, on keys of any type
    with a boolean [<]. *)
Section StableSortBy.

Context {A K : Type}.
Variable ltb : K -> K -> bool.
Variable key : A -> K.

Fixpoint insert_by (x : A) (l : list A) : list A :=
  match l with
  | [] => [x]
  | y :: l' =>
      if ltb (key y) (key x) then y :: insert_by x l' else x :: y :: l'
  end.

Fixpoint sort_by (l : list A) : list A :=
  match l with
  | [] => []
  | x :: l' => insert_by x (sort_by l')
  end.

(** No later element is below an earlier one. *)
Definition in_order (a b : A) : Prop := ltb (key b) (key a) = false.

(** No later element is above an earlier one. *)
Definition in_reverse_order (a b : A) : Prop := ltb (key a) (key b) = false.

End StableSortBy.

(** The sort key of a record, [x.get(sort_by, 0)], when it is a string. *)
Definition str_key (sort_by : string) (x : json) : string :=
  match py_get x sort_by (JInt 0) with
  | Ok (JStr s) => s
  | _ => ""
  end.

Definition has_str_key (sort_by : string) (x : json) : Prop :=
  exists s, py_get x sort_by (JInt 0) = Ok (JStr s).

(** The records whose key is the string [s], in the order of the list. *)
Definition with_str_key (sort_by : string) (s : string) (l : list json)
  : list json :=
  filter (fun x => String.eqb (str_key sort_by x) s) l.

Definition is_record (x : json) : bool :=
  match x with
  | JObj _ => true
  | _ => false
  end.

(** A sort key that is an [int], one that is a string. *)
Definition int_keyed (x : json * json) : Prop := exists z, fst x = JInt z.
Definition str_keyed (x : json * json) : Prop := exists s, fst x = JStr s.

Definition mapping_entries : dict :=
  [("P001", JObj (sample_fields 30)); ("P002", JObj (sample_fields 20));
   ("P003", JObj (sample_fields 25))].

(** A record with a gender of its own, and one without the key. *)
Definition sample_of (gender : string) (age : Z) : json :=
  JObj [("name", JStr "Asha"); ("city", JStr "Pune"); ("age", JInt age);
        ("gender", JStr gender); ("height", JFloat f_1_75);
        ("weight", JFloat f_70)].

Definition sample_without_gender (age : Z) : json :=
  JObj [("name", JStr "Asha"); ("city", JStr "Pune"); ("age", JInt age);
        ("height", JFloat f_1_75); ("weight", JFloat f_70)].

Definition null_name : PatientUpdate.t :=
  PatientUpdate.mk (Some None) None None None None None.

(** * Properties *)

(** ** The order of floats

    [SFcompare] orders two finite numbers of one sign by exponent and then
    by mantissa; the lemmas below hold for every [spec_float]. *)

Lemma SFcompare_antisym (x y : float) :
  SFcompare y x = option_map CompOpp (SFcompare x y).
Proof.
  destruct x as [sx | sx | | sx mx ex], y as [sy | sy | | sy my ey];
    simpl; try reflexivity;
    try (destruct sx; reflexivity); try (destruct sy; reflexivity);
    try (destruct sx, sy; reflexivity).
  f_equal.
  rewrite (Z.compare_antisym ex ey).
  change (Pos.compare_cont Eq my mx) with (Pos.compare my mx).
  change (Pos.compare_cont Eq mx my) with (Pos.compare mx my).
  rewrite (Pos.compare_antisym mx my).
  destruct sx, sy, (ex ?= ey), (mx ?= my)%positive; reflexivity.
Qed.

Lemma SFcompare_Lt_trans (x y z : float) :
  SFcompare x y = Some Lt -> SFcompare y z = Some Lt ->
  SFcompare x z = Some Lt.
Proof.
  destruct x as [sx | sx | | sx mx ex], y as [sy | sy | | sy my ey],
    z as [sz | sz | | sz mz ez]; simpl;
    try discriminate;
    try (destruct sx; try discriminate; try reflexivity);
    try (destruct sy; try discriminate; try reflexivity);
    try (destruct sz; try discriminate; try reflexivity).
  all: change (Pos.compare_cont Eq) with Pos.compare.
  all: destruct (Z.compare_spec ex ey), (Z.compare_spec ey ez);
    try discriminate; subst;
    repeat match goal with
           | |- context [?a ?= ?a] => rewrite Z.compare_refl
           | H : ?a < ?b |- context [?a ?= ?b] =>
               rewrite (proj2 (Z.compare_lt_iff a b) H)
           | H : ?b < ?a |- context [?a ?= ?b] =>
               rewrite (proj2 (Z.compare_gt_iff a b) H)
           end; try reflexivity; try discriminate.
  all: try (assert (Hlt : ex < ez) by lia;
            rewrite (proj2 (Z.compare_lt_iff _ _) Hlt); reflexivity).
  all: try (assert (Hgt : ez < ex) by lia;
            rewrite (proj2 (Z.compare_gt_iff _ _) Hgt); reflexivity).
  all: destruct (Pos.compare_spec mx my), (Pos.compare_spec my mz);
    try discriminate; subst; intros _ _.
  all: try (assert (Hlt : (mx < mz)%positive) by lia;
            rewrite (proj2 (Pos.compare_lt_iff _ _) Hlt); reflexivity).
  all: try (assert (Hgt : (mz < mx)%positive) by lia;
            rewrite (proj2 (Pos.compare_gt_iff _ _) Hgt); reflexivity).
Qed.

Lemma float_lt_not_le (x y : float) :
  float_lt x y = true -> float_le y x = false.
Proof.
  unfold float_lt, float_le, SFltb, SFleb.
  rewrite (SFcompare_antisym x y).
  destruct (SFcompare x y) as [[ | | ] | ]; simpl; congruence.
Qed.

Lemma float_le_not_lt (x y : float) :
  float_le x y = true -> float_lt y x = false.
Proof.
  intros Hle. destruct (float_lt y x) eqn:Hlt; [ | reflexivity ].
  apply float_lt_not_le in Hlt. congruence.
Qed.

Lemma float_lt_trans (x y z : float) :
  float_lt x y = true -> float_lt y z = true -> float_lt x z = true.
Proof.
  unfold float_lt, SFltb. intros Hxy Hyz.
  destruct (SFcompare x y) as [[ | | ] | ] eqn:Exy; try discriminate.
  destruct (SFcompare y z) as [[ | | ] | ] eqn:Eyz; try discriminate.
  now rewrite (SFcompare_Lt_trans _ _ _ Exy Eyz).
Qed.

(** Below the smaller of two bounds is not at or above the larger one. *)
Lemma float_below_not_above (x lo hi : float) :
  float_lt lo hi = true -> float_lt x lo = true -> float_le hi x = false.
Proof.
  intros Hb Hx. apply float_lt_not_le. eapply float_lt_trans; eassumption.
Qed.

Lemma float_above_not_below (x lo hi : float) :
  float_lt lo hi = true -> float_le hi x = true -> float_lt x lo = false.
Proof.
  intros Hb Hx. destruct (float_lt x lo) eqn:E; [ | reflexivity ].
  rewrite (float_below_not_above _ _ _ Hb E) in Hx. discriminate.
Qed.

(** ** The record model *)

(** The literals are the floats Python reads them as: mantissa and
    exponent of [18.5], [24.9], [25.0] and [29.9]. *)
Example literals_of_verdict :
  lit_18_5 = S754_finite false 5207287069147136 (-48)
  /\ lit_24_9 = S754_finite false 7008726920095334 (-48)
  /\ lit_25 = S754_finite false 7036874417766400 (-48)
  /\ lit_29_9 = S754_finite false 8416101803648614 (-48).
Proof. repeat split. Qed.

(** [round(2.675, 2)] is [2.67] and [round(0.125, 2)] is [0.12]. *)
Example round2_examples :
  round2 (SFdiv prec emax (float_of_Z 2675) (float_of_Z 1000))
  = SFdiv prec emax (float_of_Z 267) (float_of_Z 100)
  /\ round2 (SFdiv prec emax (float_of_Z 125) (float_of_Z 1000))
     = SFdiv prec emax (float_of_Z 12) (float_of_Z 100).
Proof. split; reflexivity. Qed.

(** 70 kg at 1.75 m: bmi 22.86, normal weight; 90 kg: 29.39, overweight.
    The square of 1.75 is a float, so the library has no choice. *)
Example bmi_of_samples :
  forall lm,
    Patient.bmi lm (sample_patient "P001" 30) = Ok f_22_86
    /\ Patient.verdict lm (sample_patient "P001" 30) = Ok "Normal weight"
    /\ Patient.bmi lm (patient_of f_1_75 f_90) = Ok f_29_39
    /\ Patient.verdict lm (patient_of f_1_75 f_90) = Ok "Overweight".
Proof.
  intros lm. vm_compute. repeat split.
Qed.

(** 99.8 kg at 2 m: bmi 24.95, between the bands of Normal weight and
    Overweight, and the verdict is Obese. *)
Example bmi_between_the_bands :
  forall lm,
    Patient.bmi lm
      (patient_of (float_of_Z 2)
         (SFdiv prec emax (float_of_Z 998) (float_of_Z 10)))
    = Ok (SFdiv prec emax (float_of_Z 2495) (float_of_Z 100))
    /\ Patient.verdict lm
         (patient_of (float_of_Z 2)
            (SFdiv prec emax (float_of_Z 998) (float_of_Z 10)))
       = Ok "Obese".
Proof.
  intros lm. vm_compute. split; reflexivity.
Qed.

(** [2.759 ** 2]: the exact square lies between two floats, a little
    above the middle; CPython on glibc answers the lower one,
    [0x1.e72c55c96030bp+2], the float product [2.759 * 2.759] is the upper
    one. *)
Example pow_of_2_759 :
  f_2_759 = S754_finite false 6212715685957599 (-51)
  /\ 8570441288778507 * 2 ^ 52 < 6212715685957599 * 6212715685957599
  /\ 6212715685957599 * 6212715685957599 < 8570441288778508 * 2 ^ 52
  /\ float_pow2 rounds_down f_2_759
     = Ok (S754_finite false 8570441288778507 (-50))
  /\ float_pow2 rounds_up f_2_759
     = Ok (S754_finite false 8570441288778508 (-50))
  /\ SFmul prec emax f_2_759 f_2_759
     = S754_finite false 8570441288778508 (-50).
Proof. repeat split. Qed.

(** 140.785438095 kg at 2.759 m: with the lower square the bmi is 18.5 and
    the verdict Normal weight, with the upper one 18.49 and Underweight. *)
Example bmi_depends_on_the_library :
  Patient.bmi rounds_down (patient_of f_2_759 f_140_785) = Ok lit_18_5
  /\ Patient.verdict rounds_down (patient_of f_2_759 f_140_785)
     = Ok "Normal weight"
  /\ Patient.bmi rounds_up (patient_of f_2_759 f_140_785)
     = Ok (SFdiv prec emax (float_of_Z 1849) (float_of_Z 100))
  /\ Patient.verdict rounds_up (patient_of f_2_759 f_140_785)
     = Ok "Underweight".
Proof. repeat split. Qed.

(** The float product [x * x], the square rounded to the nearest float, is
    one of the two answers the library may give. *)
Lemma nearest_is_one_of_the_two (sx : bool) (mx ex : Z) (lx : location) :
  binary_round_aux prec emax sx mx ex lx
  = binary_round_toward false sx mx ex lx
  \/ binary_round_aux prec emax sx mx ex lx
     = binary_round_toward true sx mx ex lx.
Proof.
  unfold binary_round_aux, binary_round_toward.
  destruct (shr_fexp prec emax mx ex lx) as [mrs' e'].
  unfold round_nearest_even, round_toward.
  destruct (loc_of_shr_record mrs') as [ | [ | | ]]; auto.
  destruct (Z.even (shr_m mrs')); auto.
Qed.

Lemma pow_of_the_nearest (x : float) :
  let product :=
    match SFmul prec emax x x with
    | S754_infinity _ => Raise OverflowError
    | r => Ok r
    end in
  (exists s m e, x = S754_finite s m e) ->
  float_pow2 rounds_down x = product \/ float_pow2 rounds_up x = product.
Proof.
  intros product (s & m & e & ->). subst product.
  unfold float_pow2, SFmul. cbn [pow_rounds_up rounds_down rounds_up].
  replace (xorb s s) with false by now destruct s.
  destruct (nearest_is_one_of_the_two false (Zpos (m * m)) (e + e) loc_Exact)
    as [-> | ->]; auto.
Qed.

(** Inside a list two NaN of the file are one object and count as equal,
    so the comparison goes on to the next elements; [==] itself finds NaN
    unequal to NaN. *)
Example nan_in_a_list :
  py_lt (JList [JFloat S754_nan; JInt 1]) (JList [JFloat S754_nan; JInt 2])
  = Some true
  /\ py_eq (JFloat S754_nan) (JFloat S754_nan) = false
  /\ py_eq (JList [JFloat S754_nan]) (JList [JFloat S754_nan]) = true.
Proof. repeat split. Qed.

(** [float_pow2] raises nothing but [OverflowError]. *)
Lemma float_pow2_raises (lm : libm) (x : float) (e : exn) :
  float_pow2 lm x = Raise e -> e = OverflowError.
Proof.
  destruct x as [ | | | s m ex]; simpl; try discriminate.
  destruct (binary_round_toward _ _ _ _ _); congruence.
Qed.

(** The source's [verdict] reads [bmi] again at every test; the value is
    the same each time. *)
Lemma verdict_of_bmi (lm : libm) (p : Patient.t) :
  Patient.verdict lm p = (let? b := Patient.bmi lm p in Ok (four_bands b)).
Proof.
  unfold Patient.verdict, four_bands.
  destruct (Patient.bmi lm p) as [b | e]; simpl; [ | reflexivity ].
  destruct (float_lt b lit_18_5); [ reflexivity | ].
  destruct (float_le lit_18_5 b), (float_lt b lit_24_9); simpl;
    try reflexivity;
    destruct (float_le lit_25 b), (float_lt b lit_29_9); reflexivity.
Qed.

(** The bands on a value [b]: what each condition alone says of
    [four_bands]. *)
Lemma four_bands_cases (b : float) :
  (float_lt b lit_18_5 = true -> four_bands b = "Underweight") /\
  (float_le lit_18_5 b = true -> float_lt b lit_24_9 = true ->
   four_bands b = "Normal weight") /\
  (float_le lit_25 b = true -> float_lt b lit_29_9 = true ->
   four_bands b = "Overweight") /\
  (float_le lit_24_9 b = true -> float_lt b lit_25 = true ->
   four_bands b = "Obese") /\
  (float_le lit_29_9 b = true -> four_bands b = "Obese") /\
  (float_lt b lit_18_5 = false ->
   float_le lit_18_5 b && float_lt b lit_24_9 = false ->
   float_le lit_25 b && float_lt b lit_29_9 = false ->
   four_bands b = "Obese").
Proof.
  unfold four_bands.
  assert (H1 : float_lt lit_18_5 lit_24_9 = true) by reflexivity.
  assert (H2 : float_lt lit_24_9 lit_25 = true) by reflexivity.
  assert (H3 : float_lt lit_18_5 lit_25 = true) by reflexivity.
  assert (H4 : float_lt lit_18_5 lit_29_9 = true) by reflexivity.
  assert (H5 : float_lt lit_24_9 lit_29_9 = true) by reflexivity.
  repeat split.
  - intros ->. reflexivity.
  - intros Hlo Hhi. rewrite (float_le_not_lt _ _ Hlo), Hlo, Hhi.
    reflexivity.
  - intros Hlo Hhi.
    rewrite (float_above_not_below _ _ _ H3 Hlo).
    destruct (float_lt b lit_24_9) eqn:E.
    + rewrite (float_below_not_above _ _ _ H2 E) in Hlo. discriminate.
    + rewrite andb_false_r, Hlo, Hhi. reflexivity.
  - intros Hlo Hhi.
    rewrite (float_above_not_below _ _ _ H1 Hlo).
    rewrite (float_le_not_lt _ _ Hlo), andb_false_r.
    rewrite (float_lt_not_le _ _ Hhi). reflexivity.
  - intros Hlo.
    rewrite (float_above_not_below _ _ _ H4 Hlo).
    rewrite (float_above_not_below _ _ _ H5 Hlo), andb_false_r.
    rewrite (float_le_not_lt _ _ Hlo), andb_false_r. reflexivity.
  - intros -> -> ->. reflexivity.
Qed.

(** Records that pass every constraint of the class and have no [bmi] and
    no [verdict]: at a height of [1e200] the square is out of the floats'
    range and both computed fields raise [OverflowError], as the formula
    does; at [1 / 1e200] the square is zero for a library that rounds it
    down, and both raise [ZeroDivisionError]. *)
Lemma bmi_of_extreme_heights :
  Patient.constraints (patient_of f_1e200 f_70) = true
  /\ float_lt lit_0 (Patient.height (patient_of f_1e200 f_70)) = true
  /\ float_lt lit_0 (Patient.weight (patient_of f_1e200 f_70)) = true
  /\ (forall lm,
        Patient.bmi lm (patient_of f_1e200 f_70) = Raise OverflowError
        /\ Patient.verdict lm (patient_of f_1e200 f_70)
           = Raise OverflowError)
  /\ Patient.constraints (patient_of f_1e200_inv f_70) = true
  /\ Patient.bmi rounds_down (patient_of f_1e200_inv f_70)
     = Raise ZeroDivisionError
  /\ Patient.verdict rounds_down (patient_of f_1e200_inv f_70)
     = Raise ZeroDivisionError.
Proof.
  do 3 (split; [ reflexivity | ]).
  split; [ | repeat split ].
  intros lm.
  assert (H : float_pow2 lm f_1e200 = Raise OverflowError).
  { unfold float_pow2, f_1e200.
    destruct (pow_rounds_up lm _); vm_compute; reflexivity. }
  rewrite verdict_of_bmi. unfold Patient.bmi.
  change (Patient.height (patient_of f_1e200 f_70)) with f_1e200.
  rewrite H. split; reflexivity.
Qed.

(** C2: for every record with height > 0 and weight > 0 the computed field
    [bmi] is [round(weight / height ** 2, 2)] as Python evaluates it, and
    [verdict] applies the four bands to it.  Where the formula has no value
    the two fields have none either: when the square of the height overflows
    both raise [OverflowError], when it is zero both raise
    [ZeroDivisionError].  In every other case [bmi] is the rounded quotient
    and [verdict] its band: Underweight below 18.5, Normal weight from 18.5
    to below 24.9, Overweight from 25 to below 29.9, Obese in every other
    case, among them every value from 24.9 to below 25. *)
Theorem bmi_and_verdict_bands (lm : libm) (p : Patient.t) :
  float_lt lit_0 (Patient.height p) = true ->
  float_lt lit_0 (Patient.weight p) = true ->
  Patient.bmi lm p = spec_bmi lm (Patient.height p) (Patient.weight p)
  /\ Patient.verdict lm p
     = (let? b := spec_bmi lm (Patient.height p) (Patient.weight p) in
        Ok (four_bands b))
  /\ match float_pow2 lm (Patient.height p) with
     | Raise e =>
         e = OverflowError
         /\ Patient.bmi lm p = Raise OverflowError
         /\ Patient.verdict lm p = Raise OverflowError
     | Ok square =>
         if float_is_zero square then
           Patient.bmi lm p = Raise ZeroDivisionError
           /\ Patient.verdict lm p = Raise ZeroDivisionError
         else
           Patient.bmi lm p
           = Ok (round2 (SFdiv prec emax (Patient.weight p) square))
           /\ Patient.verdict lm p
              = Ok (four_bands
                      (round2 (SFdiv prec emax (Patient.weight p) square)))
     end
  /\ (forall b,
        Patient.bmi lm p = Ok b ->
        (float_lt b lit_18_5 = true ->
         Patient.verdict lm p = Ok "Underweight") /\
        (float_le lit_18_5 b = true -> float_lt b lit_24_9 = true ->
         Patient.verdict lm p = Ok "Normal weight") /\
        (float_le lit_25 b = true -> float_lt b lit_29_9 = true ->
         Patient.verdict lm p = Ok "Overweight") /\
        (float_le lit_24_9 b = true -> float_lt b lit_25 = true ->
         Patient.verdict lm p = Ok "Obese") /\
        (float_le lit_29_9 b = true -> Patient.verdict lm p = Ok "Obese") /\
        (float_lt b lit_18_5 = false ->
         float_le lit_18_5 b && float_lt b lit_24_9 = false ->
         float_le lit_25 b && float_lt b lit_29_9 = false ->
         Patient.verdict lm p = Ok "Obese")).
Proof.
  intros _ _.
  assert (Hbmi : Patient.bmi lm p
                 = spec_bmi lm (Patient.height p) (Patient.weight p))
    by reflexivity.
  split; [ exact Hbmi | ].
  split; [ rewrite <- Hbmi; apply verdict_of_bmi | ].
  split.
  - rewrite (verdict_of_bmi lm p). unfold Patient.bmi.
    destruct (float_pow2 lm (Patient.height p)) as [square | e] eqn:Hsq;
      simpl.
    + unfold float_truediv.
      destruct (float_is_zero square); simpl; split; reflexivity.
    + apply float_pow2_raises in Hsq. subst e. repeat split.
  - intros b Hb. rewrite (verdict_of_bmi lm p), Hb. simpl.
    destruct (four_bands_cases b) as (B1 & B2 & B3 & B4 & B5 & B6).
    repeat split; intros.
    + now rewrite B1.
    + now rewrite B2.
    + now rewrite B3.
    + now rewrite B4.
    + now rewrite B5.
    + now rewrite B6.
Qed.

Lemma bmi_and_verdict_bands_witness :
  float_lt lit_0 (Patient.height (patient_of f_2_759 f_140_785)) = true
  /\ float_lt lit_0 (Patient.weight (patient_of f_2_759 f_140_785)) = true
  /\ Patient.bmi rounds_down (patient_of f_2_759 f_140_785) = Ok lit_18_5
  /\ Patient.verdict rounds_down (patient_of f_2_759 f_140_785)
     = Ok "Normal weight".
Proof.
  split; [ reflexivity | ]. split; [ reflexivity | ].
  split; [ reflexivity | ].
  apply (proj1 (proj2 (proj2 (proj2 (proj2
           (bmi_and_verdict_bands rounds_down
              (patient_of f_2_759 f_140_785) eq_refl eq_refl)))
           lit_18_5 eq_refl)));
    reflexivity.
Defined.

(** ** Dicts *)

Lemma dict_get_set_same (o : dict) (k : string) (v : json) :
  dict_get (dict_set o k v) k = Some v.
Proof.
  induction o as [ | [k' v'] o IH]; simpl.
  - now rewrite String.eqb_refl.
  - destruct (String.eqb k' k) eqn:E; simpl.
    + now rewrite String.eqb_refl.
    + now rewrite E.
Qed.

Lemma dict_get_set_other (o : dict) (k k' : string) (v : json) :
  String.eqb k k' = false ->
  dict_get (dict_set o k v) k' = dict_get o k'.
Proof.
  intros Hk. induction o as [ | [k0 v0] o IH]; simpl.
  - now rewrite Hk.
  - destruct (String.eqb k0 k) eqn:E; simpl.
    + apply String.eqb_eq in E. subst k0. now rewrite Hk.
    + now rewrite IH.
Qed.

Lemma dict_get_del_same (o : dict) (k : string) :
  dict_get (dict_del o k) k = None.
Proof.
  induction o as [ | [k' v'] o IH]; simpl; [ reflexivity | ].
  destruct (String.eqb k' k) eqn:E; simpl; [ assumption | ].
  now rewrite E.
Qed.

Lemma rfold_setitem (l o : dict) :
  rfold (fun info kv => py_setitem info (fst kv) (snd kv)) l (JObj o)
  = Ok (JObj (overlay o l)).
Proof.
  revert o. induction l as [ | kv l IH]; intros o; simpl; [ reflexivity | ].
  apply IH.
Qed.

Lemma rfold_setitem_not_dict (l : dict) (v : json) (r : json) :
  rfold (fun info kv => py_setitem info (fst kv) (snd kv)) l v = Ok r ->
  (forall o, v <> JObj o) -> l = [] /\ r = v.
Proof.
  destruct l as [ | kv l]; simpl.
  - intros [= <-]. auto.
  - destruct v; simpl; try discriminate. intros _ H. now elim (H o).
Qed.

Lemma overlay_app (o l1 l2 : dict) :
  overlay o (l1 ++ l2) = overlay (overlay o l1) l2.
Proof. apply fold_left_app. Qed.

Lemma overlay_field_same {A : Type} (o : dict) (k : string) (inj : A -> json)
  (f : option (option A)) :
  dict_get (overlay o (PatientUpdate.dump_field k inj f)) k
  = match f with
    | None => dict_get o k
    | Some None => Some JNull
    | Some (Some a) => Some (inj a)
    end.
Proof.
  destruct f as [[a | ] | ]; simpl; try apply dict_get_set_same. reflexivity.
Qed.

Lemma overlay_field_other {A : Type} (o : dict) (k k' : string)
  (inj : A -> json) (f : option (option A)) :
  String.eqb k k' = false ->
  dict_get (overlay o (PatientUpdate.dump_field k inj f)) k' = dict_get o k'.
Proof.
  intros Hk. destruct f as [[a | ] | ]; simpl;
    try (now apply dict_get_set_other). reflexivity.
Qed.

Ltac overlay_get :=
  unfold PatientUpdate.model_dump_exclude_unset;
  repeat rewrite overlay_app;
  repeat (rewrite overlay_field_other by reflexivity);
  rewrite overlay_field_same;
  repeat (rewrite overlay_field_other by reflexivity);
  reflexivity.

Lemma merged_name (o : dict) (u : PatientUpdate.t) :
  dict_get (overlay o (PatientUpdate.model_dump_exclude_unset u)) "name"
  = merged_value JStr (PatientUpdate.name u) (dict_get o "name").
Proof. overlay_get. Qed.

Lemma merged_city (o : dict) (u : PatientUpdate.t) :
  dict_get (overlay o (PatientUpdate.model_dump_exclude_unset u)) "city"
  = merged_value JStr (PatientUpdate.city u) (dict_get o "city").
Proof. overlay_get. Qed.

Lemma merged_age (o : dict) (u : PatientUpdate.t) :
  dict_get (overlay o (PatientUpdate.model_dump_exclude_unset u)) "age"
  = merged_value JInt (PatientUpdate.age u) (dict_get o "age").
Proof. overlay_get. Qed.

Lemma merged_gender (o : dict) (u : PatientUpdate.t) :
  dict_get (overlay o (PatientUpdate.model_dump_exclude_unset u)) "gender"
  = merged_value JStr (PatientUpdate.gender u) (dict_get o "gender").
Proof. overlay_get. Qed.

Lemma merged_height (o : dict) (u : PatientUpdate.t) :
  dict_get (overlay o (PatientUpdate.model_dump_exclude_unset u)) "height"
  = merged_value JFloat (PatientUpdate.height u) (dict_get o "height").
Proof. overlay_get. Qed.

Lemma merged_weight (o : dict) (u : PatientUpdate.t) :
  dict_get (overlay o (PatientUpdate.model_dump_exclude_unset u)) "weight"
  = merged_value JFloat (PatientUpdate.weight u) (dict_get o "weight").
Proof. overlay_get. Qed.


(** ** The models *)

Lemma field_ok {A : Type} (validate : json -> option A) (kwargs : dict)
  (k : string) (a : A) :
  field validate kwargs k = Ok a ->
  exists v, dict_get kwargs k = Some v /\ validate v = Some a.
Proof.
  unfold field. destruct (dict_get kwargs k) as [v | ]; [ | discriminate ].
  destruct (validate v) as [a' | ] eqn:E; [ | discriminate ].
  intros [= <-]. now exists v.
Qed.

Lemma field_str_ok (kwargs : dict) (k s : string) :
  field validate_str kwargs k = Ok s -> dict_get kwargs k = Some (JStr s).
Proof.
  intros H. apply field_ok in H as (v & Hv & Hs).
  destruct v; try discriminate. injection Hs as ->. assumption.
Qed.

Lemma init_ok (c : lax) (kwargs : dict) (p : Patient.t) :
  Patient.init c kwargs = Ok p -> init_spec c kwargs p.
Proof.
  unfold Patient.init.
  destruct (field validate_str kwargs "id") as [i | ] eqn:Hi;
    [ | discriminate ].
  destruct (field validate_str kwargs "name") as [n | ] eqn:Hn;
    [ | discriminate ].
  destruct (field validate_str kwargs "city") as [ci | ] eqn:Hc;
    [ | discriminate ].
  destruct (field (validate_int c) kwargs "age") as [a | ] eqn:Ha;
    [ | discriminate ].
  destruct (field validate_str kwargs "gender") as [g | ] eqn:Hg;
    [ | discriminate ].
  destruct (field (validate_float c) kwargs "height") as [h | ] eqn:Hh;
    [ | discriminate ].
  destruct (field (validate_float c) kwargs "weight") as [wt | ] eqn:Hw;
    [ | discriminate ].
  simpl. unfold check.
  destruct (Patient.constraints (Patient.mk i n ci a g h wt)) eqn:Hk;
    [ | discriminate ].
  simpl. intros [= <-].
  constructor; simpl;
    solve [ now apply field_str_ok | now apply field_ok | assumption ].
Qed.

(** The dump is the six fields followed by the two computed ones. *)
Lemma model_dump_ok (lm : libm) (p : Patient.t) (d : dict) :
  Patient.model_dump_exclude_id lm p = Ok d ->
  exists b v,
    Patient.bmi lm p = Ok b /\ Patient.verdict lm p = Ok v /\
    d = [("name", JStr (Patient.name p)); ("city", JStr (Patient.city p));
         ("age", JInt (Patient.age p)); ("gender", JStr (Patient.gender p));
         ("height", JFloat (Patient.height p));
         ("weight", JFloat (Patient.weight p));
         ("bmi", JFloat b); ("verdict", JStr v)].
Proof.
  unfold Patient.model_dump_exclude_id.
  destruct (Patient.bmi lm p) as [b | ]; [ | discriminate ].
  destruct (Patient.verdict lm p) as [v | ]; [ | discriminate ].
  simpl. intros [= <-]. now exists b, v.
Qed.

(** The computed fields only read [height] and [weight]. *)
Lemma bmi_ext (lm : libm) (p q : Patient.t) :
  Patient.height q = Patient.height p ->
  Patient.weight q = Patient.weight p ->
  Patient.bmi lm q = Patient.bmi lm p.
Proof. unfold Patient.bmi. now intros -> ->. Qed.

Lemma verdict_ext (lm : libm) (p q : Patient.t) :
  Patient.height q = Patient.height p ->
  Patient.weight q = Patient.weight p ->
  Patient.verdict lm q = Patient.verdict lm p.
Proof.
  intros Hh Hw. unfold Patient.verdict. now rewrite (bmi_ext lm p q Hh Hw).
Qed.

(** ** The handlers *)

Lemma save_data_holds (data0 data : json) (w : world) :
  patients_json w = Holds data0 -> save_data data w = (Ok tt, written data w).
Proof. unfold save_data. now intros ->. Qed.

Lemma save_data_protected (data0 data : json) (w : world) :
  patients_json w = WriteProtected data0 ->
  save_data data w = (Raise PermissionError, w).
Proof. unfold save_data. now intros ->. Qed.

Lemma save_data_no_room (data0 data : json) (w : world) :
  patients_json w = Unwritable data0 ->
  save_data data w
  = (Raise OSError, {| patients_json := Garbled; saved := data :: saved w |}).
Proof. unfold save_data. now intros ->. Qed.

(** A save that returned found a file that could be written. *)
Lemma save_data_ok (data : json) (w w' : world) :
  save_data data w = (Ok tt, w') -> w' = written data w.
Proof.
  unfold save_data.
  destruct (patients_json w); intros [= <-]; reflexivity.
Qed.

(** What [load_data] returns is what the file holds. *)
Lemma load_data_ok (data : json) (w w' : world) :
  load_data w = (Ok data, w') ->
  w' = w
  /\ (patients_json w = Holds data \/ patients_json w = WriteProtected data
      \/ patients_json w = Unwritable data).
Proof.
  unfold load_data.
  destruct (patients_json w); intros [= <- <-]; auto.
Qed.

Lemma create_patient_ok (lm : libm) (p : Patient.t) (w w' : world)
  (resp : response) :
  create_patient lm p w = (Ok resp, w') ->
  exists data dumped,
    patients_json w = Holds (JObj data) /\
    dict_has data (Patient.id p) = false /\
    Patient.model_dump_exclude_id lm p = Ok dumped /\
    w' = written (JObj (dict_set data (Patient.id p) (JObj dumped))) w.
Proof.
  unfold create_patient, bind, lift, load_data, save_data, ret, raise.
  destruct (patients_json w) as [ | | e | data | data | data] eqn:Hf;
    try discriminate.
  all: destruct (py_contains data (Patient.id p)) as [[ | ] | ] eqn:Hc;
    try discriminate.
  all: destruct (Patient.model_dump_exclude_id lm p) as [dumped | ] eqn:Hd;
    try discriminate.
  all: destruct data; simpl in *; try discriminate.
  all: rewrite Hf; try discriminate.
  intros [= <- <-]. exists o, dumped. injection Hc as Hc. auto.
Qed.

Lemma update_patient_ok (lm : libm) (c : lax) (patient_id : string)
  (u : PatientUpdate.t) (w w' : world) (resp : response) :
  update_patient lm c patient_id u w = (Ok resp, w') ->
  exists data stored p dumped,
    patients_json w = Holds (JObj data) /\
    dict_get data patient_id = Some (JObj stored) /\
    Patient.init c
      (dict_set (overlay stored (PatientUpdate.model_dump_exclude_unset u))
         "id" (JStr patient_id)) = Ok p /\
    Patient.model_dump_exclude_id lm p = Ok dumped /\
    w' = written (JObj (dict_set data patient_id (JObj dumped))) w.
Proof.
  unfold update_patient, bind, lift, load_data, save_data, ret, raise.
  destruct (patients_json w) as [ | | e | data | data | data] eqn:Hf;
    try discriminate.
  all: destruct (py_contains data patient_id) as [[ | ] | ] eqn:Hc;
    try discriminate.
  all: simpl.
  all: destruct (py_getitem data patient_id) as [existing | ] eqn:Hg;
    try discriminate.
  all: destruct data as [ | | | | | | data]; try discriminate.
  all: simpl in Hg; destruct (dict_get data patient_id) as [v | ] eqn:Hv;
    try discriminate.
  all: injection Hg as ->.
  all: destruct (rfold _ _ existing) as [merged | ] eqn:Hm;
    try discriminate.
  all: destruct (py_setitem merged "id" (JStr patient_id)) as [kw | ] eqn:Hk;
    try discriminate.
  all: destruct merged as [ | | | | | | merged]; try discriminate.
  all: injection Hk as <-.
  all: destruct existing as [ | | | | | | stored];
    try (apply rfold_setitem_not_dict in Hm as [_ Hm];
         [ discriminate | intros o; discriminate ]).
  all: rewrite rfold_setitem in Hm; injection Hm as <-.
  all: destruct (Patient.init c _) as [p | ] eqn:Hp; try discriminate.
  all: destruct (Patient.model_dump_exclude_id lm p) as [dumped | ] eqn:Hd;
    try discriminate.
  all: simpl; rewrite Hf; try discriminate.
  intros [= <- <-]. exists data, stored, p, dumped. auto.
Qed.

Lemma delete_patient_ok (patient_id : string) (w w' : world)
  (resp : response) :
  delete_patient patient_id w = (Ok resp, w') ->
  exists data,
    patients_json w = Holds (JObj data) /\
    dict_has data patient_id = true /\
    w' = written (JObj (dict_del data patient_id)) w.
Proof.
  unfold delete_patient, bind, lift, load_data, save_data, ret, raise.
  destruct (patients_json w) as [ | | e | data | data | data] eqn:Hf;
    try discriminate.
  all: destruct (py_contains data patient_id) as [[ | ] | ] eqn:Hc;
    try discriminate.
  all: simpl; destruct data; simpl in *; try discriminate.
  all: injection Hc as Hc; rewrite Hc, Hf; try discriminate.
  intros [= <- <-]. exists o. auto.
Qed.


Lemma dumped_fresh (lm : libm) (p : Patient.t) (d : dict) :
  Patient.model_dump_exclude_id lm p = Ok d -> derived_fields_fresh lm d.
Proof.
  intros H. apply model_dump_ok in H as (b & v & Hb & Hv & ->).
  rewrite verdict_of_bmi, Hb in Hv. injection Hv as <-.
  exists (Patient.height p), (Patient.weight p), b.
  repeat split; try reflexivity. exact Hb.
Qed.

(** ** Update *)

Section UpdateFrame.

Variables (lm : libm) (c : lax) (patient_id : string)
  (u : PatientUpdate.t).
Variables (w w' : world) (resp : response) (data stored : dict).
Hypothesis Hfile : patients_json w = Holds (JObj data).
Hypothesis Hstored : dict_get data patient_id = Some (JObj stored).
Hypothesis Hrun : update_patient lm c patient_id u w = (Ok resp, w').

(** The facts about a successful update that the theorems share. *)
Lemma update_patient_merge :
  exists p dumped,
    init_spec c
      (dict_set (overlay stored (PatientUpdate.model_dump_exclude_unset u))
         "id" (JStr patient_id)) p /\
    Patient.model_dump_exclude_id lm p = Ok dumped /\
    w' = written (JObj (dict_set data patient_id (JObj dumped))) w.
Proof.
  destruct (update_patient_ok _ _ _ _ _ _ _ Hrun)
    as (data0 & stored0 & p & dumped & Hf & Hs & Hp & Hd & Hw).
  rewrite Hfile in Hf. injection Hf as <-.
  rewrite Hstored in Hs. injection Hs as <-.
  exists p, dumped. auto using init_ok.
Qed.

End UpdateFrame.


Lemma kept_str_same (k : string) (stored new : dict) :
  kept validate_str JStr k stored new -> dict_get new k = dict_get stored k.
Proof.
  intros (v & s & Hv & Hs & Hn). destruct v; try discriminate.
  injection Hs as ->. congruence.
Qed.

Lemma kept_float_same (c : lax) (k : string) (stored new : dict) (h : float) :
  kept (validate_float c) JFloat k stored new ->
  dict_get stored k = Some (JFloat h) -> dict_get new k = Some (JFloat h).
Proof.
  intros (v & a & Hv & Ha & Hn) Hs. rewrite Hs in Hv. injection Hv as <-.
  simpl in Ha. congruence.
Qed.

Lemma kept_int_same (c : lax) (k : string) (stored new : dict) (z : Z) :
  kept (validate_int c) JInt k stored new ->
  dict_get stored k = Some (JInt z) -> dict_get new k = Some (JInt z).
Proof.
  intros (v & a & Hv & Ha & Hn) Hs. rewrite Hs in Hv. injection Hv as <-.
  simpl in Ha. congruence.
Qed.

(** One field of the merge: the keyword argument is the merged value, the
    constructor validated it to [a], the dump wrote [inj a]; [inj a]
    validates to [a] again. *)
Lemma field_overlaid_intro {A : Type} (validate : json -> option A)
  (inj : A -> json) (f : option (option A)) (k : string)
  (stored new kwargs : dict) (a : A) :
  (forall x, validate (inj x) = Some x) ->
  dict_get kwargs k = merged_value inj f (dict_get stored k) ->
  (exists v, dict_get kwargs k = Some v /\ validate v = Some a) ->
  dict_get new k = Some (inj a) ->
  field_overlaid validate inj f k stored new.
Proof.
  intros Hinj Hm (v & Hv & Ha) Hn. split.
  - intros x ->. simpl in Hm. rewrite Hm in Hv. injection Hv as <-.
    rewrite Hinj in Ha. congruence.
  - intros ->. simpl in Hm. exists v, a. repeat split; congruence.
Qed.

(** C3: a successful update overlays the fields the payload supplies, and
    only those, onto the stored fields: a field the payload supplies is
    persisted with the payload's value, a field the payload leaves out is
    persisted with the stored value as its validator reads it.  In
    particular a payload that holds only [age] leaves [name], [city] and
    [gender] as they were stored, and [height] and [weight] too (stored as
    floats, they are written back as the same floats). *)
Theorem update_overlays_present_fields (lm : libm)
  (c : lax) (patient_id : string) (u : PatientUpdate.t) (w w' : world)
  (resp : response) (data stored : dict) :
  patients_json w = Holds (JObj data) ->
  dict_get data patient_id = Some (JObj stored) ->
  update_patient lm c patient_id u w = (Ok resp, w') ->
  exists new,
    patients_json w' = Holds (JObj (dict_set data patient_id (JObj new))) /\
    field_overlaid validate_str JStr (PatientUpdate.name u) "name" stored new /\
    field_overlaid validate_str JStr (PatientUpdate.city u) "city" stored new /\
    field_overlaid (validate_int c) JInt (PatientUpdate.age u) "age"
      stored new /\
    field_overlaid validate_str JStr (PatientUpdate.gender u) "gender"
      stored new /\
    field_overlaid (validate_float c) JFloat (PatientUpdate.height u) "height"
      stored new /\
    field_overlaid (validate_float c) JFloat (PatientUpdate.weight u) "weight"
      stored new /\
    (forall a, u = only_age a ->
       dict_get new "name" = dict_get stored "name" /\
       dict_get new "city" = dict_get stored "city" /\
       dict_get new "gender" = dict_get stored "gender" /\
       (forall h, dict_get stored "height" = Some (JFloat h) ->
                  dict_get new "height" = Some (JFloat h)) /\
       (forall x, dict_get stored "weight" = Some (JFloat x) ->
                  dict_get new "weight" = Some (JFloat x))).
Proof.
  intros Hfile Hstored Hrun.
  destruct (update_patient_merge _ _ _ _ _ _ _ _ _ Hfile Hstored Hrun)
    as (p & new & Hp & Hd & ->).
  apply model_dump_ok in Hd as (b & v & _ & _ & Hnew).
  destruct Hp as [_ Hname Hcity Hage Hgender Hheight Hweight _].
  rewrite dict_get_set_other in Hname, Hcity, Hage, Hgender, Hheight, Hweight
    by reflexivity.
  assert (Fname : field_overlaid validate_str JStr (PatientUpdate.name u)
                    "name" stored new).
  { eapply field_overlaid_intro with (a := Patient.name p);
      [ reflexivity | apply merged_name | | now rewrite Hnew ].
    eexists; split; [ exact Hname | reflexivity ]. }
  assert (Fcity : field_overlaid validate_str JStr (PatientUpdate.city u)
                    "city" stored new).
  { eapply field_overlaid_intro with (a := Patient.city p);
      [ reflexivity | apply merged_city | | now rewrite Hnew ].
    eexists; split; [ exact Hcity | reflexivity ]. }
  assert (Fage : field_overlaid (validate_int c) JInt (PatientUpdate.age u)
                   "age" stored new).
  { eapply field_overlaid_intro with (a := Patient.age p);
      [ reflexivity | apply merged_age | exact Hage | now rewrite Hnew ]. }
  assert (Fgender : field_overlaid validate_str JStr (PatientUpdate.gender u)
                      "gender" stored new).
  { eapply field_overlaid_intro with (a := Patient.gender p);
      [ reflexivity | apply merged_gender | | now rewrite Hnew ].
    eexists; split; [ exact Hgender | reflexivity ]. }
  assert (Fheight : field_overlaid (validate_float c) JFloat
                      (PatientUpdate.height u) "height" stored new).
  { eapply field_overlaid_intro with (a := Patient.height p);
      [ reflexivity | apply merged_height | exact Hheight
      | now rewrite Hnew ]. }
  assert (Fweight : field_overlaid (validate_float c) JFloat
                      (PatientUpdate.weight u) "weight" stored new).
  { eapply field_overlaid_intro with (a := Patient.weight p);
      [ reflexivity | apply merged_weight | exact Hweight
      | now rewrite Hnew ]. }
  exists new. split; [ reflexivity | ].
  repeat (split; [ assumption | ]).
  intros a ->.
  repeat split.
  - apply kept_str_same, Fname; reflexivity.
  - apply kept_str_same, Fcity; reflexivity.
  - apply kept_str_same, Fgender; reflexivity.
  - intros h. apply (kept_float_same c), Fheight; reflexivity.
  - intros x. apply (kept_float_same c), Fweight; reflexivity.
Qed.

Lemma update_overlays_present_fields_witness :
  exists new,
    persisted_record
      (snd (update_patient rounds_down strict "P001" (only_age 31)
              (on_disk store_mapping))) "P001" = Some (JObj new)
    /\ dict_get new "age" = Some (JInt 31)
    /\ dict_get new "name" = Some (JStr "Asha")
    /\ dict_get new "city" = Some (JStr "Pune")
    /\ dict_get new "gender" = Some (JStr "Female")
    /\ dict_get new "height" = Some (JFloat f_1_75)
    /\ dict_get new "weight" = Some (JFloat f_70).
Proof.
  destruct (update_overlays_present_fields rounds_down strict "P001"
              (only_age 31) (on_disk store_mapping)
              (snd (update_patient rounds_down strict "P001" (only_age 31)
                      (on_disk store_mapping)))
              (JSONResponse 200
                 (JObj [("message",
                         JStr "Patient details updated successfully!")]))
              [("P001", JObj (sample_fields 30));
               ("P002", JObj (sample_fields 20));
               ("P003", JObj (sample_fields 25))]
              (sample_fields 30) eq_refl eq_refl eq_refl)
    as (new & Hfile & _ & _ & Hage & _ & _ & _ & Hframe).
  destruct (Hframe 31 eq_refl) as (Hn & Hc & Hg & Hh & Hw).
  exists new. unfold persisted_record. rewrite Hfile.
  split; [ reflexivity | ].
  split; [ exact (proj1 Hage 31 eq_refl) | ].
  split; [ exact Hn | ]. split; [ exact Hc | ]. split; [ exact Hg | ].
  split; [ exact (Hh f_1_75 eq_refl) | exact (Hw f_70 eq_refl) ].
Defined.


(** C4: after a successful update whose payload supplies a new weight and no
    height, the persisted record holds the new weight and the stored height
    (as the validator reads it), its [bmi] is
    [round(new weight / stored height ** 2, 2)] and its [verdict] is the
    band of that [bmi] under the four-band rule. *)
Theorem update_weight_recomputes_derived (lm : libm)
  (c : lax) (patient_id : string) (u : PatientUpdate.t) (w w' : world)
  (resp : response) (data stored : dict) (wt : float) :
  patients_json w = Holds (JObj data) ->
  dict_get data patient_id = Some (JObj stored) ->
  PatientUpdate.weight u = Some (Some wt) ->
  PatientUpdate.height u = None ->
  update_patient lm c patient_id u w = (Ok resp, w') ->
  exists new v h square b,
    patients_json w' = Holds (JObj (dict_set data patient_id (JObj new))) /\
    dict_get stored "height" = Some v /\ validate_float c v = Some h /\
    dict_get new "height" = Some (JFloat h) /\
    dict_get new "weight" = Some (JFloat wt) /\
    float_pow2 lm h = Ok square /\ float_is_zero square = false /\
    b = round2 (SFdiv prec emax wt square) /\
    spec_bmi lm h wt = Ok b /\
    dict_get new "bmi" = Some (JFloat b) /\
    dict_get new "verdict" = Some (JStr (four_bands b)).
Proof.
  intros Hfile Hstored Hwt Hh Hrun.
  destruct (update_patient_merge _ _ _ _ _ _ _ _ _ Hfile Hstored Hrun)
    as (p & new & Hp & Hd & ->).
  pose proof (dumped_fresh _ _ _ Hd)
    as (h' & wt' & b & Gh & Gw & Gspec & Gb & Gv).
  apply model_dump_ok in Hd as (b0 & v0 & _ & _ & Hnew).
  destruct Hp as [_ _ _ _ _ (vh & Hvh & Hh') (vw & Hvw & Hw') _].
  rewrite dict_get_set_other in Hvh, Hvw by reflexivity.
  rewrite merged_height, Hh in Hvh. rewrite merged_weight, Hwt in Hvw.
  simpl in Hvh, Hvw. injection Hvw as <-. simpl in Hw'. injection Hw' as Hw'.
  rewrite Hnew in Gh, Gw. simpl in Gh, Gw.
  injection Gh as <-. injection Gw as <-.
  subst wt.
  assert (Hsq : exists square,
             float_pow2 lm (Patient.height p) = Ok square
             /\ float_is_zero square = false
             /\ b = round2 (SFdiv prec emax (Patient.weight p) square)).
  { revert Gspec. unfold spec_bmi, float_truediv.
    destruct (float_pow2 lm (Patient.height p)) as [square | ]; simpl;
      [ | discriminate ].
    destruct (float_is_zero square) eqn:Hz; simpl; [ discriminate | ].
    intros [= <-]. exists square. repeat split; assumption. }
  destruct Hsq as (square & Hsq & Hnz & Hb).
  exists new, vh, (Patient.height p), square, b.
  repeat (split; [ solve [ auto | now rewrite Hnew ] | ]).
  assumption.
Qed.

Lemma update_weight_recomputes_derived_witness :
  exists new,
    persisted_record
      (snd (update_patient rounds_down strict "P001" (new_weight f_90)
              (on_disk store_mapping))) "P001" = Some (JObj new)
    /\ dict_get new "height" = Some (JFloat f_1_75)
    /\ dict_get new "weight" = Some (JFloat f_90)
    /\ dict_get new "bmi" = Some (JFloat f_29_39)
    /\ dict_get new "verdict" = Some (JStr "Overweight").
Proof.
  destruct (update_weight_recomputes_derived rounds_down strict "P001"
              (new_weight f_90) (on_disk store_mapping)
              (snd (update_patient rounds_down strict "P001"
                      (new_weight f_90) (on_disk store_mapping)))
              (JSONResponse 200
                 (JObj [("message",
                         JStr "Patient details updated successfully!")]))
              [("P001", JObj (sample_fields 30));
               ("P002", JObj (sample_fields 20));
               ("P003", JObj (sample_fields 25))]
              (sample_fields 30) f_90 eq_refl eq_refl eq_refl eq_refl eq_refl)
    as (new & v & h & square & b & Hfile & Hv & Hh & Gh & Gw & _ & _ & _
        & Hb & Gb & Gv).
  injection Hv as <-. injection Hh as <-.
  injection Hb as <-.
  exists new. unfold persisted_record. rewrite Hfile.
  repeat split; assumption.
Defined.

(** ** Create, and the invariant of the writes *)

(** C5: a create whose id is already a key of the store fails with the
    conflict error (status 400, "Patient already exists") and leaves the
    world as it was: the file is not written and no save is made. *)
Theorem create_existing_id_conflict (lm : libm) (p : Patient.t) (w : world)
  (data : dict) :
  patients_json w = Holds (JObj data) ->
  dict_has data (Patient.id p) = true ->
  create_patient lm p w
  = (Raise (HTTPException 400 "Patient already exists"), w).
Proof.
  intros Hfile Hhas.
  unfold create_patient, bind, lift, load_data, raise.
  rewrite Hfile. simpl. rewrite Hhas. reflexivity.
Qed.

Lemma create_existing_id_conflict_witness :
  dict_has [("P001", JObj (sample_fields 30));
            ("P002", JObj (sample_fields 20));
            ("P003", JObj (sample_fields 25))] "P002" = true
  /\ create_patient rounds_down (sample_patient "P002" 41)
       (on_disk store_mapping)
     = (Raise (HTTPException 400 "Patient already exists"),
        on_disk store_mapping).
Proof.
  split; [ reflexivity | ].
  exact (create_existing_id_conflict rounds_down (sample_patient "P002" 41)
           (on_disk store_mapping) _ eq_refl eq_refl).
Defined.

(** C9: after every successful create and every successful update the record
    persisted under the id holds [height], [weight], [bmi] and [verdict], the
    [bmi] is [round(weight / height ** 2, 2)] of that record's own persisted
    [height] and [weight], and the [verdict] is the band of that [bmi] under
    the four-band rule. *)
Theorem writes_keep_derived_fields_fresh (lm : libm)
  (c : lax) (key : string) (w w' : world) :
  successful_write lm c key w w' ->
  exists r,
    persisted_record w' key = Some (JObj r) /\ derived_fields_fresh lm r.
Proof.
  intros [(p & resp & <- & Hrun) | (u & resp & Hrun)].
  - apply create_patient_ok in Hrun as (data & dumped & _ & _ & Hd & ->).
    exists dumped. unfold persisted_record. simpl.
    rewrite dict_get_set_same. eauto using dumped_fresh.
  - apply update_patient_ok in Hrun
      as (data & stored & p & dumped & _ & _ & _ & Hd & ->).
    exists dumped. unfold persisted_record. simpl.
    rewrite dict_get_set_same. eauto using dumped_fresh.
Qed.

Lemma writes_keep_derived_fields_fresh_witness :
  (exists r,
      persisted_record
        (snd (create_patient rounds_down (sample_patient "P004" 41)
                (on_disk store_mapping))) "P004" = Some (JObj r)
      /\ derived_fields_fresh rounds_down r)
  /\ (exists r,
        persisted_record
          (snd (update_patient rounds_down strict "P001" (new_weight f_90)
                  (on_disk store_mapping))) "P001" = Some (JObj r)
        /\ derived_fields_fresh rounds_down r).
Proof.
  split.
  - apply (writes_keep_derived_fields_fresh rounds_down strict "P004"
             (on_disk store_mapping)).
    left. exists (sample_patient "P004" 41).
    exists (JSONResponse 201
              (JObj [("message", JStr "Patient created sucessfully!")])).
    split; reflexivity.
  - apply (writes_keep_derived_fields_fresh rounds_down strict "P001"
             (on_disk store_mapping)).
    right. exists (new_weight f_90).
    exists (JSONResponse 200
              (JObj [("message",
                      JStr "Patient details updated successfully!")])).
    reflexivity.
Defined.

(** ** The queries are read-only *)

Lemma read_only_ret {A : Type} (a : A) : read_only (ret a).
Proof. intros w. reflexivity. Qed.

Lemma read_only_raise {A : Type} (e : exn) : read_only (@raise A e).
Proof. intros w. reflexivity. Qed.

Lemma read_only_lift {A : Type} (r : result A) : read_only (lift r).
Proof. intros w. reflexivity. Qed.

Lemma read_only_load_data : read_only load_data.
Proof. intros w. unfold load_data. now destruct (patients_json w). Qed.

Lemma read_only_bind {A B : Type} (m : M A) (k : A -> M B) :
  read_only m -> (forall a, read_only (k a)) -> read_only (bind m k).
Proof.
  intros Hm Hk w. unfold bind. specialize (Hm w).
  destruct (m w) as [[a | e] w1]; simpl in *; subst w1.
  - apply Hk.
  - reflexivity.
Qed.

Lemma read_only_view : read_only view.
Proof.
  unfold view.
  apply read_only_bind; [ apply read_only_load_data | ].
  intros data. apply read_only_ret.
Qed.

Lemma read_only_view_patient (patient_id : Z) :
  read_only (view_patient patient_id).
Proof.
  unfold view_patient.
  repeat (apply read_only_bind;
          [ first [ apply read_only_load_data | apply read_only_lift ]
          | intros ? ]).
  match goal with |- read_only (match ?r with _ => _ end) => destruct r end;
    apply read_only_ret.
Qed.

Lemma read_only_sort_patients (sort_by order : string) :
  read_only (sort_patients sort_by order).
Proof.
  unfold sort_patients.
  destruct (negb (str_in sort_by valid_fields)); [ apply read_only_raise | ].
  destruct (negb (str_in order ["asc"; "desc"])); [ apply read_only_raise | ].
  repeat (apply read_only_bind;
          [ first [ apply read_only_load_data | apply read_only_lift ]
          | intros ? ]).
  apply read_only_ret.
Qed.

(** C10: list all, get by id and sort never save: whatever they return or
    raise, the world after the call (the file and the trace of saves) is the
    world before it. *)
Theorem queries_never_save (w : world) :
  snd (view w) = w
  /\ (forall patient_id, snd (view_patient patient_id w) = w)
  /\ (forall sort_by order, snd (sort_patients sort_by order w) = w).
Proof.
  split; [ apply read_only_view | ].
  split; intros.
  - apply read_only_view_patient.
  - apply read_only_sort_patients.
Qed.
(** ** Sort *)
Lemma str_in_In (s : string) (l : list string) :
  str_in s l = true <-> In s l.
Proof.
  unfold str_in. rewrite existsb_exists. split.
  - intros (x & Hx & E). apply String.eqb_eq in E. now subst.
  - intros H. exists s. split; [ assumption | apply String.eqb_refl ].
Qed.

Lemma less_than_raises (a b : json) (e : exn) :
  less_than a b = Raise e -> e = TypeError.
Proof. unfold less_than. destruct (py_lt a b); congruence. Qed.

Lemma insert_by_key_raises (x : json * json) (l : list (json * json))
  (e : exn) :
  insert_by_key x l = Raise e -> e = TypeError.
Proof.
  induction l as [ | y l IH]; simpl; [ discriminate | ].
  destruct (less_than (fst y) (fst x)) as [[ | ] | e'] eqn:E; simpl.
  - destruct (insert_by_key x l); simpl; [ discriminate | ].
    intros [= <-]. now apply IH.
  - discriminate.
  - intros [= <-]. eauto using less_than_raises.
Qed.

Lemma sort_by_key_raises (l : list (json * json)) (e : exn) :
  sort_by_key l = Raise e -> e = TypeError.
Proof.
  induction l as [ | x l IH]; simpl; [ discriminate | ].
  destruct (sort_by_key l) as [r | e']; simpl.
  - apply insert_by_key_raises.
  - intros [= <-]. now apply IH.
Qed.

Lemma rmap_raises {A B : Type} (P : exn -> Prop) (f : A -> result B)
  (l : list A) (e : exn) :
  (forall x e', f x = Raise e' -> P e') -> rmap f l = Raise e -> P e.
Proof.
  intros Hf. induction l as [ | x l IH]; simpl; [ discriminate | ].
  destruct (f x) as [y | e'] eqn:E; simpl.
  - destruct (rmap f l); simpl; [ discriminate | ].
    intros [= <-]. now apply IH.
  - intros [= <-]. eauto.
Qed.

Lemma sorted_raises (v : json) (k : string) (d : json) (reverse : bool)
  (e : exn) :
  sorted v (fun x => py_get x k d) reverse = Raise e ->
  e = TypeError \/ e = AttributeError.
Proof.
  unfold sorted.
  destruct (py_iter v) as [items | e0] eqn:Hi; simpl.
  - destruct (rmap _ items) as [keyed | e1] eqn:Hk; simpl.
    + destruct reverse.
      * destruct (sort_by_key (rev keyed)) as [r | e2] eqn:Hs; simpl;
          [ discriminate | ].
        intros [= <-]. left. eauto using sort_by_key_raises.
      * destruct (sort_by_key keyed) as [r | e2] eqn:Hs; simpl;
          [ discriminate | ].
        intros [= <-]. left. eauto using sort_by_key_raises.
    + intros [= <-]. right.
      revert Hk. apply (rmap_raises (fun e => e = AttributeError)).
      intros x e'.
      destruct x; simpl; try congruence.
      destruct (dict_get o k); simpl; discriminate.
  - intros [= <-]. left. destruct v; simpl in Hi; congruence.
Qed.

(** With a valid key and a valid direction the sort raises what
    [load_data] raises when the file cannot be loaded. *)
Example sort_of_no_file :
  fst (sort_patients "age" "asc" no_file) = Raise FileNotFoundError.
Proof. reflexivity. Qed.

(** X25: the sort fails with the bad-request error (status 400) if and only
    if the sort key is not one of gender and age or the direction is not one
    of asc and desc; this holds in every world, the parameters being checked
    before the file is read. *)
Theorem sort_bad_request_iff (sort_by order : string) (w : world) :
  (exists detail,
      fst (sort_patients sort_by order w) = Raise (HTTPException 400 detail))
  <-> (~ In sort_by ["gender"; "age"] \/ ~ In order ["asc"; "desc"]).
Proof.
  rewrite <- !str_in_In. unfold sort_patients. fold valid_fields.
  destruct (str_in sort_by valid_fields) eqn:Hs; cbn [negb].
  - destruct (str_in order ["asc"; "desc"]) eqn:Ho; cbn [negb].
    + split.
      * intros (detail & H). exfalso. revert H.
        unfold bind, load_data, lift, ret.
        destruct (patients_json w) as [ | | [ | | ] | data | data | data];
          try discriminate.
        all: match goal with
             | |- context [sorted ?a ?b ?c] =>
                 destruct (sorted a b c) as [r | e] eqn:E
             end; try discriminate.
        all: intros [= ->].
        all: apply sorted_raises in E as [E | E]; discriminate.
      * intros [H | H]; now elim H.
    + split; [ intros _; right; discriminate | ].
      intros _. eexists. reflexivity.
  - split; [ intros _; left; discriminate | ].
    intros _. eexists. reflexivity.
Qed.





Section StableSortFacts.

Context {A : Type}.
Variable key : A -> Z.

Lemma insert_stable_perm (x : A) (l : list A) :
  Permutation (x :: l) (insert_stable key x l).
Proof.
  induction l as [ | y l IH]; simpl; [ reflexivity | ].
  destruct (key y <? key x); [ | reflexivity ].
  rewrite perm_swap. now constructor.
Qed.

Lemma sort_stable_perm (l : list A) : Permutation l (sort_stable key l).
Proof.
  induction l as [ | x l IH]; simpl; [ constructor | ].
  rewrite <- insert_stable_perm. now constructor.
Qed.

Lemma insert_stable_sorted (x : A) (l : list A) :
  StronglySorted (ascending key) l ->
  StronglySorted (ascending key) (insert_stable key x l).
Proof.
  induction 1 as [ | y l Hl IH Hy]; simpl.
  - repeat constructor.
  - destruct (key y <? key x) eqn:E.
    + constructor; [ assumption | ].
      rewrite <- insert_stable_perm. constructor; [ | assumption ].
      apply Z.ltb_lt in E. unfold ascending. lia.
    + apply Z.ltb_ge in E.
      constructor; [ now constructor | ].
      constructor; [ exact E | ].
      eapply Forall_impl; [ | exact Hy ].
      unfold ascending. intros; lia.
Qed.

Lemma sort_stable_sorted (l : list A) :
  StronglySorted (ascending key) (sort_stable key l).
Proof.
  induction l as [ | x l IH]; simpl;
    [ constructor | now apply insert_stable_sorted ].
Qed.

Lemma insert_stable_with_key (z : Z) (x : A) (l : list A) :
  with_key key z (insert_stable key x l) = with_key key z (x :: l).
Proof.
  unfold with_key. induction l as [ | y l IH]; simpl; [ reflexivity | ].
  destruct (key y <? key x) eqn:E; [ | reflexivity ].
  simpl. rewrite IH. simpl. apply Z.ltb_lt in E.
  destruct (key y =? z) eqn:Ey, (key x =? z) eqn:Ex; try reflexivity.
  apply Z.eqb_eq in Ey, Ex. lia.
Qed.

Lemma sort_stable_with_key (z : Z) (l : list A) :
  with_key key z (sort_stable key l) = with_key key z l.
Proof.
  induction l as [ | x l IH]; simpl; [ reflexivity | ].
  rewrite insert_stable_with_key. unfold with_key in *. simpl.
  now rewrite IH.
Qed.

Lemma with_key_rev (z : Z) (l : list A) :
  with_key key z (rev l) = rev (with_key key z l).
Proof.
  unfold with_key. induction l as [ | x l IH]; simpl; [ reflexivity | ].
  rewrite filter_app, IH. simpl.
  destruct (key x =? z); simpl; [ reflexivity | apply app_nil_r ].
Qed.

Lemma sorted_snoc (R : A -> A -> Prop) (l : list A) (x : A) :
  StronglySorted R l -> Forall (fun y => R y x) l ->
  StronglySorted R (l ++ [x]).
Proof.
  induction 1 as [ | y l Hl IH Hy]; simpl; intros Hx.
  - repeat constructor.
  - inversion Hx; subst. constructor; [ auto | ].
    apply Forall_app. split; [ assumption | now constructor ].
Qed.

Lemma ascending_rev (l : list A) :
  StronglySorted (ascending key) l ->
  StronglySorted (descending key) (rev l).
Proof.
  induction 1 as [ | y l Hl IH Hy]; simpl; [ constructor | ].
  apply sorted_snoc; [ assumption | ].
  apply Forall_rev. exact Hy.
Qed.

(** With [reverse=True]: reverse, sort, reverse. *)
Lemma sort_reversed_perm (l : list A) :
  Permutation l (rev (sort_stable key (rev l))).
Proof.
  rewrite <- Permutation_rev, <- sort_stable_perm. apply Permutation_rev.
Qed.

Lemma sort_reversed_sorted (l : list A) :
  StronglySorted (descending key) (rev (sort_stable key (rev l))).
Proof. apply ascending_rev, sort_stable_sorted. Qed.

Lemma sort_reversed_with_key (z : Z) (l : list A) :
  with_key key z (rev (sort_stable key (rev l))) = with_key key z l.
Proof.
  now rewrite with_key_rev, sort_stable_with_key, with_key_rev, rev_involutive.
Qed.

End StableSortFacts.

Lemma less_than_JInt (a b : Z) :
  less_than (JInt a) (JInt b) = Ok (a <? b).
Proof. unfold less_than. simpl. unfold Z.ltb. now destruct (a ?= b). Qed.

Section SortOnInts.

Variable kz : json -> Z.

Lemma insert_by_key_ints (x : json) (l : list json) :
  insert_by_key (JInt (kz x), x) (map (fun y => (JInt (kz y), y)) l)
  = Ok (map (fun y => (JInt (kz y), y)) (insert_stable kz x l)).
Proof.
  induction l as [ | y l IH]; [ reflexivity | ].
  cbn -[less_than Z.ltb]. rewrite less_than_JInt. cbn -[Z.ltb].
  destruct (kz y <? kz x); [ | reflexivity ].
  rewrite IH. reflexivity.
Qed.

Lemma sort_by_key_ints (l : list json) :
  sort_by_key (map (fun y => (JInt (kz y), y)) l)
  = Ok (map (fun y => (JInt (kz y), y)) (sort_stable kz l)).
Proof.
  induction l as [ | x l IH]; [ reflexivity | ].
  cbn [map sort_by_key sort_stable]. rewrite IH.
  cbn [rbind]. apply insert_by_key_ints.
Qed.

Lemma map_snd_keyed (l : list json) :
  map snd (map (fun y => (JInt (kz y), y)) l) = l.
Proof. rewrite map_map. simpl. apply map_id. Qed.

End SortOnInts.

Lemma keys_of_int_records (sort_by : string) (records : list json) :
  Forall (has_int_key sort_by) records ->
  rmap (fun x => let? k := py_get x sort_by (JInt 0) in Ok (k, x)) records
  = Ok (map (fun x => (JInt (int_key sort_by x), x)) records).
Proof.
  induction 1 as [ | x l (z & Hz) Hl IH]; simpl; [ reflexivity | ].
  unfold int_key at 1. rewrite Hz. simpl. now rewrite IH.
Qed.

(** On a list of records with integer sort keys [sorted] is the stable
    sort: ascending, or descending with [reverse]. *)
Lemma sorted_int_records (sort_by : string) (records : list json)
  (reverse : bool) :
  Forall (has_int_key sort_by) records ->
  sorted (JList records) (fun x => py_get x sort_by (JInt 0)) reverse
  = Ok (if reverse
        then rev (sort_stable (int_key sort_by) (rev records))
        else sort_stable (int_key sort_by) records).
Proof.
  intros H. unfold sorted. simpl. rewrite (keys_of_int_records _ _ H). simpl.
  destruct reverse.
  - rewrite <- map_rev, sort_by_key_ints. simpl.
    now rewrite <- map_rev, map_snd_keyed.
  - rewrite sort_by_key_ints. simpl. now rewrite map_snd_keyed.
Qed.

(** X22: on a list of records whose sort keys are integers the handler
    returns the stable sort of the records by the key, a missing key counting
    as 0: the same records, those of equal key in their first order,
    ascending for asc and descending for desc. *)
Lemma sort_patients_on_list (sort_by order : string) (records : list json)
  (w : world) :
  patients_json w = Holds (JList records) ->
  In sort_by ["gender"; "age"] -> In order ["asc"; "desc"] ->
  Forall (has_int_key sort_by) records ->
  exists out,
    sort_patients sort_by order w = (Ok (Return (JList out)), w) /\
    Permutation records out /\
    (forall z, with_key (int_key sort_by) z out
               = with_key (int_key sort_by) z records) /\
    (order = "asc" -> StronglySorted (ascending (int_key sort_by)) out) /\
    (order = "desc" -> StronglySorted (descending (int_key sort_by)) out).
Proof.
  intros Hfile Hs Ho Hk.
  apply str_in_In in Hs. apply str_in_In in Ho.
  unfold sort_patients, valid_fields. rewrite Hs, Ho. cbn [negb].
  unfold bind, load_data, lift, ret. rewrite Hfile.
  rewrite (sorted_int_records _ _ _ Hk).
  destruct (String.eqb order "desc") eqn:E; eexists;
    (split; [ reflexivity | ]).
  - apply String.eqb_eq in E. subst order.
    split; [ apply sort_reversed_perm | ].
    split; [ intros z; apply sort_reversed_with_key | ].
    split; [ discriminate | ]. intros _. apply sort_reversed_sorted.
  - split; [ apply sort_stable_perm | ].
    split; [ intros z; apply sort_stable_with_key | ].
    split; [ intros _; apply sort_stable_sorted | ].
    intros ->. discriminate.
Qed.
(** C7, at a failing input: the file holds the mapping from id to fields
    with the ages 30, 20 and 25; [sorted] runs over the keys of the mapping,
    which are strings and have no [get], and raises [AttributeError] in both
    directions. *)
Theorem sort_on_stored_mapping_raises :
  fst (sort_patients "age" "asc" (on_disk store_mapping))
  = Raise AttributeError
  /\ fst (sort_patients "age" "desc" (on_disk store_mapping))
     = Raise AttributeError.
Proof. split; reflexivity. Qed.

(** The same three records as a list sort as the claim says. *)
Example sort_list_by_age_asc :
  fst (sort_patients "age" "asc" (on_disk store_list))
  = Ok (Return (JList [JObj (sample_fields 20); JObj (sample_fields 25);
                       JObj (sample_fields 30)])).
Proof. reflexivity. Qed.

Example sort_list_by_age_desc :
  fst (sort_patients "age" "desc" (on_disk store_list))
  = Ok (Return (JList [JObj (sample_fields 30); JObj (sample_fields 25);
                       JObj (sample_fields 20)])).
Proof. reflexivity. Qed.

(** ** Get by id *)
(** C1, at a failing input: the file holds a list of two records with the
    ids 1 and 2; asked for id 2, the handler raises the 404 of its loop body
    on the first record, although the second record of the list has the id
    asked for. *)
Theorem view_patient_stops_at_first_record :
  fst (view_patient 2 (on_disk store_with_ids))
  = Raise (HTTPException 404 "Patient not found")
  /\ py_iter store_with_ids
     = Ok [JObj (("id", JInt 1) :: sample_fields 30);
           JObj (("id", JInt 2) :: sample_fields 20)]
  /\ py_getitem (JObj (("id", JInt 2) :: sample_fields 20)) "id"
     = Ok (JInt 2)
  /\ eq_int (JInt 2) 2 = true.
Proof. repeat split. Qed.

(** X23: on a list only the first element is ever looked at. *)
Lemma view_patient_first_only (patient_id : Z) (first : json)
  (rest : list json) (w : world) :
  patients_json w = Holds (JList (first :: rest)) ->
  fst (view_patient patient_id w)
  = fst (view_patient patient_id (on_disk (JList [first]))).
Proof.
  intros Hf. unfold view_patient, bind, lift, load_data, ret.
  rewrite Hf. simpl.
  destruct (py_getitem first "id") as [i | e]; simpl; [ | reflexivity ].
  destruct (eq_int i patient_id); reflexivity.
Qed.

(** On a mapping the loop runs over the keys, which are strings: an empty
    mapping falls off the end of the function and returns [None], any other
    mapping raises [TypeError] at the subscript. *)
Lemma view_patient_on_mapping (patient_id : Z) (data : dict) (w : world) :
  patients_json w = Holds (JObj data) ->
  fst (view_patient patient_id w)
  = match data with
    | [] => Ok (Return JNull)
    | _ :: _ => Raise TypeError
    end.
Proof.
  intros Hf. unfold view_patient, bind, lift, load_data, ret.
  rewrite Hf. destruct data as [ | [k v] data]; reflexivity.
Qed.

(** ** Delete, then get by id *)
(** C8, at failing inputs: the record "1" is deleted from a mapping and the
    path [/patients/1] is asked for.  If the record was the only one the get
    returns [None]; if another record is left the get raises [TypeError].
    Neither is the 404. *)
Theorem delete_then_view_is_not_404 :
  (let (r, w1) := delete_patient "1" (on_disk store_one) in
   r = Ok deleted
   /\ fst (view_patient 1 w1) = Ok (Return JNull))
  /\
  (let (r, w1) := delete_patient "1" (on_disk store_two) in
   r = Ok deleted
   /\ fst (view_patient 1 w1) = Raise TypeError).
Proof. split; split; reflexivity. Qed.

(** X24: after any successful delete the get never answers 404. *)
Lemma delete_then_view_never_404 (patient_id : string) (n : Z)
  (w w1 : world) (resp : response) :
  delete_patient patient_id w = (Ok resp, w1) ->
  fst (view_patient n w1) = Ok (Return JNull)
  \/ fst (view_patient n w1) = Raise TypeError.
Proof.
  intros H. apply delete_patient_ok in H as (data & _ & _ & ->).
  rewrite (view_patient_on_mapping n (dict_del data patient_id)) by reflexivity.
  destruct (dict_del data patient_id); auto.
Qed.

(** * Further properties of the handlers *)

(** The static routes answer without looking at the file. *)
Lemma static_routes_are_read_only : read_only hello /\ read_only about.
Proof. split; apply read_only_ret. Qed.

(** ** Dicts, continued *)

Lemma dict_has_get (o : dict) (k : string) :
  dict_has o k = false <-> dict_get o k = None.
Proof.
  unfold dict_has. destruct (dict_get o k); split; congruence.
Qed.

Lemma dict_set_absent (o : dict) (k : string) (v : json) :
  dict_has o k = false -> dict_set o k v = o ++ [(k, v)].
Proof.
  unfold dict_has. induction o as [ | [k' v'] o IH]; simpl; [ reflexivity | ].
  destruct (String.eqb k' k); [ discriminate | ].
  intros H. now rewrite IH.
Qed.

Lemma dict_keys_set_present (o : dict) (k : string) (v : json) :
  dict_has o k = true -> dict_keys (dict_set o k v) = dict_keys o.
Proof.
  unfold dict_has, dict_keys.
  induction o as [ | [k' v'] o IH]; simpl; [ discriminate | ].
  destruct (String.eqb k' k) eqn:E; simpl.
  - apply String.eqb_eq in E. now subst.
  - intros H. now rewrite IH.
Qed.

Lemma dict_keys_del (o : dict) (k : string) :
  dict_keys (dict_del o k)
  = filter (fun k' => negb (String.eqb k' k)) (dict_keys o).
Proof.
  unfold dict_keys. induction o as [ | [k' v'] o IH]; simpl; [ reflexivity | ].
  destruct (String.eqb k' k); simpl; now rewrite IH.
Qed.

Lemma dict_get_del_other (o : dict) (k k' : string) :
  String.eqb k k' = false -> dict_get (dict_del o k) k' = dict_get o k'.
Proof.
  intros Hk. induction o as [ | [k0 v0] o IH]; simpl; [ reflexivity | ].
  destruct (String.eqb k0 k) eqn:E; simpl.
  - apply String.eqb_eq in E. subst k0. now rewrite Hk.
  - now rewrite IH.
Qed.

Lemma dict_del_absent (o : dict) (k : string) :
  dict_has o k = false -> dict_del o k = o.
Proof.
  unfold dict_has. induction o as [ | [k' v'] o IH]; simpl; [ reflexivity | ].
  destruct (String.eqb k' k); [ discriminate | ].
  intros H. now rewrite IH.
Qed.

Lemma dict_del_set_absent (o : dict) (k : string) (v : json) :
  dict_has o k = false -> dict_del (dict_set o k v) k = o.
Proof.
  intros H. rewrite (dict_set_absent _ _ _ H).
  induction o as [ | [k' v'] o IH]; simpl.
  - now rewrite String.eqb_refl.
  - unfold dict_has in H. simpl in H.
    destruct (String.eqb k' k); [ discriminate | ].
    now rewrite (IH H).
Qed.

Lemma dict_set_set (o : dict) (k : string) (v v' : json) :
  dict_set (dict_set o k v) k v' = dict_set o k v'.
Proof.
  induction o as [ | [k0 v0] o IH]; simpl.
  - now rewrite String.eqb_refl.
  - destruct (String.eqb k0 k) eqn:E; simpl.
    + now rewrite String.eqb_refl.
    + now rewrite E, IH.
Qed.

Lemma dict_has_set (o : dict) (k : string) (v : json) :
  dict_has (dict_set o k v) k = true.
Proof. unfold dict_has. now rewrite dict_get_set_same. Qed.

(** ** The mutations as a whole *)

(** The computation stops at a raise of its first part. *)
Ltac stop_or_go :=
  try (intros [= _ <-]; left; reflexivity).

(** The last step, [save_data], on the three files that can be loaded. *)
Ltac save_or_fail Hf :=
  cbn; rewrite Hf; try discriminate;
  intros [= <- <-];
  first [ left; reflexivity
        | right; split; [ reflexivity | do 2 eexists; split; reflexivity ] ].

(** X1: a create, update or delete that raises has written nothing, the
    world after it, file and trace of saves, being the world before it,
    unless the exception is the [OSError] of the write itself: then the
    device had no room and the file is left cut short. *)
Theorem failed_mutation_writes_nothing (lm : libm)
  (c : lax) (m : mutation) (w w' : world) (e : exn) :
  run lm c m w = (Raise e, w') ->
  w' = w
  \/ (e = OSError
      /\ exists data new,
           patients_json w = Unwritable data
           /\ w' = {| patients_json := Garbled; saved := new :: saved w |}).
Proof.
  destruct m as [p | patient_id u | patient_id]; simpl.
  - unfold create_patient, bind, lift, load_data, save_data, ret, raise.
    destruct (patients_json w) as [ | | r | data | data | data] eqn:Hf;
      stop_or_go.
    all: destruct (py_contains data (Patient.id p)) as [[ | ] | ];
      stop_or_go.
    all: destruct (Patient.model_dump_exclude_id lm p) as [dumped | ];
      stop_or_go.
    all: destruct (py_setitem data (Patient.id p) (JObj dumped));
      stop_or_go.
    all: save_or_fail Hf.
  - unfold update_patient, bind, lift, load_data, save_data, ret, raise.
    destruct (patients_json w) as [ | | r | data | data | data] eqn:Hf;
      stop_or_go.
    all: destruct (py_contains data patient_id) as [[ | ] | ]; simpl;
      stop_or_go.
    all: destruct (py_getitem data patient_id) as [existing | ]; stop_or_go.
    all: destruct (rfold _ _ existing) as [merged | ]; stop_or_go.
    all: destruct (py_setitem merged "id" (JStr patient_id)) as [kw | ];
      stop_or_go.
    all: destruct (match kw with JObj kwargs => Patient.init c kwargs
                               | _ => Raise TypeError end) as [p | ];
      stop_or_go.
    all: destruct (Patient.model_dump_exclude_id lm p) as [dumped | ];
      stop_or_go.
    all: destruct (py_setitem data patient_id (JObj dumped)); stop_or_go.
    all: save_or_fail Hf.
  - unfold delete_patient, bind, lift, load_data, save_data, ret, raise.
    destruct (patients_json w) as [ | | r | data | data | data] eqn:Hf;
      stop_or_go.
    all: destruct (py_contains data patient_id) as [[ | ] | ]; simpl;
      stop_or_go.
    all: destruct (py_delitem data patient_id); stop_or_go.
    all: save_or_fail Hf.
Qed.

(** X26: a create, update or delete that raises on a file that can be read
    and written (conflict, not found, validation error, a computed field
    that raises, a value that is no mapping) has written nothing: the world
    after it, file and trace of saves, is the world before it. *)
Theorem failed_mutation_on_sound_file (lm : libm) (c : lax) (m : mutation)
  (w w' : world) (e : exn) (data : json) :
  patients_json w = Holds data ->
  run lm c m w = (Raise e, w') -> w' = w.
Proof.
  intros Hf H.
  destruct m as [p | patient_id u | patient_id]; simpl in H; revert H.
  - unfold create_patient, bind, lift, load_data, ret, raise.
    rewrite Hf.
    destruct (py_contains data (Patient.id p)) as [[ | ] | ];
      try (intros [= _ <-]; reflexivity).
    destruct (Patient.model_dump_exclude_id lm p) as [dumped | ];
      try (intros [= _ <-]; reflexivity).
    destruct (py_setitem data (Patient.id p) (JObj dumped));
      try (intros [= _ <-]; reflexivity).
    rewrite (save_data_holds _ _ _ Hf). discriminate.
  - unfold update_patient, bind, lift, load_data, ret, raise.
    rewrite Hf.
    destruct (py_contains data patient_id) as [[ | ] | ]; simpl;
      try (intros [= _ <-]; reflexivity).
    destruct (py_getitem data patient_id) as [existing | ];
      try (intros [= _ <-]; reflexivity).
    destruct (rfold _ _ existing) as [merged | ];
      try (intros [= _ <-]; reflexivity).
    destruct (py_setitem merged "id" (JStr patient_id)) as [kw | ];
      try (intros [= _ <-]; reflexivity).
    destruct (match kw with JObj kwargs => Patient.init c kwargs
                          | _ => Raise TypeError end) as [p | ];
      try (intros [= _ <-]; reflexivity).
    destruct (Patient.model_dump_exclude_id lm p) as [dumped | ];
      try (intros [= _ <-]; reflexivity).
    destruct (py_setitem data patient_id (JObj dumped));
      try (intros [= _ <-]; reflexivity).
    rewrite (save_data_holds _ _ _ Hf). discriminate.
  - unfold delete_patient, bind, lift, load_data, ret, raise.
    rewrite Hf.
    destruct (py_contains data patient_id) as [[ | ] | ]; simpl;
      try (intros [= _ <-]; reflexivity).
    destruct (py_delitem data patient_id);
      try (intros [= _ <-]; reflexivity).
    rewrite (save_data_holds _ _ _ Hf). discriminate.
Qed.

(** A create on a device with no room: the handler raises [OSError] and
    the file that held three records is left cut short; on a file that may
    not be written it raises [PermissionError] and the file is as before;
    a delete of an unknown id raises its 404 on either. *)
Example mutations_on_failing_devices :
  create_patient rounds_down (sample_patient "P004" 41)
    (no_room store_mapping)
  = (Raise OSError,
     {| patients_json := Garbled;
        saved := [JObj (mapping_entries
                        ++ [("P004", JObj (sample_fields 41))])] |})
  /\ create_patient rounds_down (sample_patient "P004" 41)
       (protected store_mapping)
     = (Raise PermissionError, protected store_mapping)
  /\ delete_patient "P009" (no_room store_mapping)
     = (Raise not_found, no_room store_mapping)
  /\ delete_patient "P001" (no_room store_mapping)
     = (Raise OSError,
        {| patients_json := Garbled;
           saved := [JObj [("P002", JObj (sample_fields 20));
                           ("P003", JObj (sample_fields 25))]] |}).
Proof. repeat split. Qed.

Lemma mutation_ok (lm : libm) (c : lax) (m : mutation) (w w' : world)
  (resp : response) :
  run lm c m w = (Ok resp, w') ->
  exists data new,
    patients_json w = Holds (JObj data) /\
    w' = written (JObj new) w /\
    match m with
    | Create p =>
        dict_has data (Patient.id p) = false /\
        exists dumped,
          Patient.model_dump_exclude_id lm p = Ok dumped /\
          new = dict_set data (Patient.id p) (JObj dumped)
    | Update patient_id u =>
        dict_has data patient_id = true /\
        exists dumped, new = dict_set data patient_id (JObj dumped)
    | Delete patient_id =>
        dict_has data patient_id = true /\ new = dict_del data patient_id
    end.
Proof.
  destruct m as [p | patient_id u | patient_id]; simpl; intros H.
  - apply create_patient_ok in H as (data & dumped & Hf & Hh & Hd & ->).
    exists data, (dict_set data (Patient.id p) (JObj dumped)). eauto 7.
  - apply update_patient_ok in H
      as (data & stored & p & dumped & Hf & Hs & _ & _ & ->).
    exists data, (dict_set data patient_id (JObj dumped)).
    repeat split; eauto. unfold dict_has. now rewrite Hs.
  - apply delete_patient_ok in H as (data & Hf & Hh & ->).
    exists data, (dict_del data patient_id). auto.
Qed.

(** X2: a create, update or delete that returns has saved exactly once, the
    file then holds the saved value, which is a mapping, and list-all on the
    new world returns that mapping. *)
Theorem successful_mutation_saves_once (lm : libm)
  (c : lax) (m : mutation) (w w' : world) (resp : response) :
  run lm c m w = (Ok resp, w') ->
  exists data,
    patients_json w' = Holds (JObj data) /\
    saved w' = JObj data :: saved w /\
    view w' = (Ok (Return (JObj data)), w').
Proof.
  intros H. apply mutation_ok in H as (data & new & _ & -> & _).
  exists new. repeat split.
Qed.

(** X3: a create, update or delete that returns leaves the record of every
    other id as it was. *)
Theorem mutation_leaves_other_records (lm : libm)
  (c : lax) (m : mutation) (w w' : world) (resp : response) (k : string) :
  run lm c m w = (Ok resp, w') -> k <> target m ->
  persisted_record w' k = persisted_record w k.
Proof.
  intros H Hk. apply mutation_ok in H as (data & new & Hf & -> & Hm).
  unfold persisted_record. rewrite Hf. simpl.
  assert (E : String.eqb (target m) k = false).
  { apply String.eqb_neq. congruence. }
  destruct m as [p | patient_id u | patient_id]; simpl in *.
  - destruct Hm as (_ & dumped & _ & ->). now apply dict_get_set_other.
  - destruct Hm as (_ & dumped & ->). now apply dict_get_set_other.
  - destruct Hm as (_ & ->). now apply dict_get_del_other.
Qed.

(** X4: the ids keep their order: a create puts the new id last, an update
    moves nothing, a delete takes its id out and moves nothing else. *)
Theorem mutation_keeps_order_of_ids (lm : libm)
  (c : lax) (m : mutation) (w w' : world) (resp : response) :
  run lm c m w = (Ok resp, w') ->
  exists ks, store_keys w = Some ks /\ store_keys w' = Some (keys_after m ks).
Proof.
  intros H. apply mutation_ok in H as (data & new & Hf & -> & Hm).
  exists (dict_keys data). unfold store_keys. rewrite Hf. simpl.
  split; [ reflexivity | ]. f_equal.
  destruct m as [p | patient_id u | patient_id]; simpl in *.
  - destruct Hm as (Hh & dumped & _ & ->).
    rewrite (dict_set_absent _ _ _ Hh). unfold dict_keys.
    now rewrite map_app.
  - destruct Hm as (Hh & dumped & ->). now apply dict_keys_set_present.
  - destruct Hm as (_ & ->). apply dict_keys_del.
Qed.

(** X5: on a mapping that lacks the id, and when the record's computed
    fields have a value, create returns 201 and saves the mapping with the
    dumped record appended under the id. *)
Theorem create_patient_appends (lm : libm)
  (p : Patient.t) (w : world) (data dumped : dict) :
  patients_json w = Holds (JObj data) ->
  dict_has data (Patient.id p) = false ->
  Patient.model_dump_exclude_id lm p = Ok dumped ->
  create_patient lm p w
  = (Ok created, written (JObj (data ++ [(Patient.id p, JObj dumped)])) w).
Proof.
  intros Hf Hh Hd.
  unfold create_patient, bind, lift, load_data, save_data, ret.
  rewrite Hf. simpl. rewrite Hh, Hd. simpl. rewrite Hf.
  now rewrite (dict_set_absent _ _ _ Hh).
Qed.

Lemma delete_patient_run (patient_id : string) (w : world) (data : dict) :
  patients_json w = Holds (JObj data) ->
  dict_has data patient_id = true ->
  delete_patient patient_id w
  = (Ok deleted, written (JObj (dict_del data patient_id)) w).
Proof.
  intros Hf Hh.
  unfold delete_patient, bind, lift, load_data, save_data, ret.
  rewrite Hf. simpl. rewrite !Hh. simpl. rewrite ?Hh, ?Hf. reflexivity.
Qed.

(** X6: on a mapping that has the id, delete returns 200 and saves the
    mapping without it; the file then holds no record under the id. *)
Theorem delete_patient_removes
  (patient_id : string) (w : world) (data : dict) :
  patients_json w = Holds (JObj data) ->
  dict_has data patient_id = true ->
  delete_patient patient_id w
  = (Ok deleted, written (JObj (dict_del data patient_id)) w)
  /\ persisted_record (written (JObj (dict_del data patient_id)) w) patient_id
     = None.
Proof.
  intros Hf Hh. split.
  - now apply delete_patient_run.
  - unfold persisted_record. simpl. apply dict_get_del_same.
Qed.

(** X7: on a mapping that lacks the id, update and delete both raise the
    404 and write nothing. *)
Theorem unknown_id_is_not_found (lm : libm)
  (c : lax) (patient_id : string) (u : PatientUpdate.t) (w : world)
  (data : dict) :
  patients_json w = Holds (JObj data) ->
  dict_has data patient_id = false ->
  update_patient lm c patient_id u w = (Raise not_found, w)
  /\ delete_patient patient_id w = (Raise not_found, w).
Proof.
  intros Hf Hh. split.
  - unfold update_patient, bind, lift, load_data, raise.
    rewrite Hf. simpl. now rewrite Hh.
  - unfold delete_patient, bind, lift, load_data, raise.
    rewrite Hf. simpl. now rewrite Hh.
Qed.

(** X8: a successful create followed by the delete of the same id leaves
    the file holding what it held before the create. *)
Theorem create_then_delete_restores (lm : libm)
  (p : Patient.t) (w w1 : world) (resp : response) :
  create_patient lm p w = (Ok resp, w1) ->
  exists w2,
    delete_patient (Patient.id p) w1 = (Ok deleted, w2)
    /\ patients_json w2 = patients_json w.
Proof.
  intros H. apply create_patient_ok in H as (data & dumped & Hf & Hh & _ & ->).
  eexists. split.
  - apply delete_patient_run; [ reflexivity | apply dict_has_set ].
  - simpl. now rewrite (dict_del_set_absent _ _ _ Hh).
Qed.

(** X9: after a successful create, a second create with the same id raises
    the conflict (status 400) and writes nothing. *)
Theorem create_twice_conflicts (lm : libm)
  (p q : Patient.t) (w w1 : world) (resp : response) :
  create_patient lm p w = (Ok resp, w1) ->
  Patient.id q = Patient.id p ->
  create_patient lm q w1
  = (Raise (HTTPException 400 "Patient already exists"), w1).
Proof.
  intros H Hq. apply create_patient_ok in H as (data & dumped & _ & _ & _ & ->).
  unfold create_patient, bind, lift, load_data, raise. simpl.
  now rewrite Hq, dict_has_set.
Qed.

(** ** Update, continued *)

Lemma init_raises (c : lax) (kwargs : dict) (e : exn) :
  Patient.init c kwargs = Raise e -> e = ValidationError.
Proof.
  unfold Patient.init, field, check.
  repeat match goal with
         | |- context [match ?x with _ => _ end] =>
             lazymatch x with
             | context [match _ with _ => _ end] => fail
             | _ => destruct x; simpl
             end
         | |- context [if ?x then _ else _] => destruct x; simpl
         end; congruence.
Qed.

Lemma field_intro {A : Type} (validate : json -> option A) (kwargs : dict)
  (k : string) (a : A) :
  (exists v, dict_get kwargs k = Some v /\ validate v = Some a) ->
  field validate kwargs k = Ok a.
Proof. intros (v & Hv & Ha). unfold field. now rewrite Hv, Ha. Qed.

(** The converse of [init_ok]. *)
Lemma init_intro (c : lax) (kwargs : dict) (p : Patient.t) :
  init_spec c kwargs p -> Patient.init c kwargs = Ok p.
Proof.
  intros [Hi Hn Hc Ha Hg Hh Hw Hk]. destruct p; simpl in *.
  unfold Patient.init.
  rewrite (field_intro validate_str kwargs "id" id) by eauto.
  rewrite (field_intro validate_str kwargs "name" name) by eauto.
  rewrite (field_intro validate_str kwargs "city" city) by eauto.
  rewrite (field_intro (validate_int c) kwargs "age" age) by eauto.
  rewrite (field_intro validate_str kwargs "gender" gender) by eauto.
  rewrite (field_intro (validate_float c) kwargs "height" height) by eauto.
  rewrite (field_intro (validate_float c) kwargs "weight" weight) by eauto.
  simpl. now rewrite Hk.
Qed.

Lemma update_patient_run (lm : libm) (c : lax) (patient_id : string)
  (u : PatientUpdate.t) (w : world) (data stored dumped : dict)
  (p : Patient.t) :
  patients_json w = Holds (JObj data) ->
  dict_get data patient_id = Some (JObj stored) ->
  Patient.init c
    (dict_set (overlay stored (PatientUpdate.model_dump_exclude_unset u))
       "id" (JStr patient_id)) = Ok p ->
  Patient.model_dump_exclude_id lm p = Ok dumped ->
  update_patient lm c patient_id u w
  = (Ok updated, written (JObj (dict_set data patient_id (JObj dumped))) w).
Proof.
  intros Hf Hs Hp Hd.
  unfold update_patient, bind, lift, load_data, save_data, ret.
  rewrite Hf. simpl. unfold dict_has. rewrite Hs. simpl.
  rewrite rfold_setitem. simpl. rewrite Hp, Hd. simpl. rewrite Hf.
  reflexivity.
Qed.

Lemma update_patient_fails (lm : libm) (c : lax) (patient_id : string)
  (u : PatientUpdate.t) (w : world) (data stored : dict) (e : exn) :
  patients_json w = Holds (JObj data) ->
  dict_get data patient_id = Some (JObj stored) ->
  Patient.init c
    (dict_set (overlay stored (PatientUpdate.model_dump_exclude_unset u))
       "id" (JStr patient_id)) = Raise e ->
  update_patient lm c patient_id u w = (Raise e, w).
Proof.
  intros Hf Hs Hp.
  unfold update_patient, bind, lift, load_data, save_data, ret.
  rewrite Hf. simpl. unfold dict_has. rewrite Hs. simpl.
  rewrite rfold_setitem. simpl. now rewrite Hp.
Qed.

Lemma merged_supplied {A : Type} (inj : A -> json) (f : option (option A))
  (d : A) :
  is_null f = false ->
  merged_value inj f (Some (inj d)) = Some (inj (supplied f d)).
Proof. destruct f as [[a | ] | ]; simpl; congruence. Qed.

(** X10: when the stored record holds the six fields with values of their
    own types, the payload has no explicit null, and the record with the
    payload's values passes the constraints and has computed fields, update
    returns 200 and saves exactly the dump of that record under the id. *)
Theorem update_patient_applies_payload (lm : libm)
  (c : lax) (patient_id : string) (u : PatientUpdate.t) (w : world)
  (data stored dumped : dict) (p : Patient.t) :
  patients_json w = Holds (JObj data) ->
  dict_get data patient_id = Some (JObj stored) ->
  holds_fields stored p ->
  no_nulls u = true ->
  Patient.constraints (apply_update patient_id u p) = true ->
  Patient.model_dump_exclude_id lm (apply_update patient_id u p) = Ok dumped ->
  update_patient lm c patient_id u w
  = (Ok updated, written (JObj (dict_set data patient_id (JObj dumped))) w).
Proof.
  intros Hf Hs [Hn Hc Ha Hg Hh Hw] Hnull Hk Hd.
  unfold no_nulls in Hnull. rewrite !andb_true_iff, !negb_true_iff in Hnull.
  destruct Hnull as (((((Nn & Nc) & Na) & Ng) & Nh) & Nw).
  apply (update_patient_run lm c patient_id u w data stored dumped
           (apply_update patient_id u p) Hf Hs); [ | exact Hd ].
  apply init_intro. constructor; simpl; try exact Hk.
  - apply dict_get_set_same.
  - rewrite dict_get_set_other, merged_name, Hn by reflexivity.
    now apply merged_supplied.
  - rewrite dict_get_set_other, merged_city, Hc by reflexivity.
    now apply merged_supplied.
  - rewrite dict_get_set_other, merged_age, Ha by reflexivity.
    rewrite (merged_supplied JInt _ _ Na). eexists; split; reflexivity.
  - rewrite dict_get_set_other, merged_gender, Hg by reflexivity.
    now apply merged_supplied.
  - rewrite dict_get_set_other, merged_height, Hh by reflexivity.
    rewrite (merged_supplied JFloat _ _ Nh). eexists; split; reflexivity.
  - rewrite dict_get_set_other, merged_weight, Hw by reflexivity.
    rewrite (merged_supplied JFloat _ _ Nw). eexists; split; reflexivity.
Qed.

Lemma merged_again {A : Type} (validate : json -> option A)
  (inj : A -> json) (f : option (option A)) (s : option json) (a : A) :
  (forall x, validate (inj x) = Some x) ->
  (exists v, merged_value inj f s = Some v /\ validate v = Some a) ->
  exists v, merged_value inj f (Some (inj a)) = Some v /\ validate v = Some a.
Proof.
  intros Hinj (v & Hv & Ha). destruct f as [[x | ] | ]; simpl in *; eauto.
Qed.

Lemma merged_again_str (f : option (option string)) (s : option json)
  (a : string) :
  merged_value JStr f s = Some (JStr a) ->
  merged_value JStr f (Some (JStr a)) = Some (JStr a).
Proof. destruct f as [[x | ] | ]; simpl; congruence. Qed.

(** X11: update is idempotent: after a successful update the same update
    succeeds again and leaves the file's content as the first one left
    it. *)
Theorem update_patient_twice (lm : libm)
  (c : lax) (patient_id : string) (u : PatientUpdate.t) (w w1 : world)
  (resp : response) :
  update_patient lm c patient_id u w = (Ok resp, w1) ->
  exists w2,
    update_patient lm c patient_id u w1 = (Ok updated, w2)
    /\ patients_json w2 = patients_json w1.
Proof.
  intros H.
  apply update_patient_ok in H
    as (data & stored & p & dumped & _ & _ & Hp & Hd & ->).
  apply init_ok in Hp as [Hi Hn Hc Ha Hg Hh Hw Hk].
  rewrite dict_get_set_other in Hn, Hc, Ha, Hg, Hh, Hw by reflexivity.
  rewrite merged_name in Hn. rewrite merged_city in Hc.
  rewrite merged_age in Ha. rewrite merged_gender in Hg.
  rewrite merged_height in Hh. rewrite merged_weight in Hw.
  pose proof (model_dump_ok _ _ _ Hd) as (b & v & _ & _ & Hdump).
  eexists. split.
  - apply (update_patient_run lm c patient_id u _
             (dict_set data patient_id (JObj dumped)) dumped dumped p);
      [ reflexivity | apply dict_get_set_same | | exact Hd ].
    apply init_intro. constructor; try exact Hk.
    + rewrite dict_get_set_same in *. exact Hi.
    + rewrite dict_get_set_other, merged_name by reflexivity.
      subst dumped; simpl. now apply (merged_again_str _ _ _ Hn).
    + rewrite dict_get_set_other, merged_city by reflexivity.
      subst dumped; simpl. now apply (merged_again_str _ _ _ Hc).
    + rewrite dict_get_set_other, merged_age by reflexivity.
      subst dumped; simpl.
      now apply (merged_again (validate_int c) JInt _ _ _
                   (fun _ => eq_refl) Ha).
    + rewrite dict_get_set_other, merged_gender by reflexivity.
      subst dumped; simpl. now apply (merged_again_str _ _ _ Hg).
    + rewrite dict_get_set_other, merged_height by reflexivity.
      subst dumped; simpl.
      now apply (merged_again (validate_float c) JFloat _ _ _
                   (fun _ => eq_refl) Hh).
    + rewrite dict_get_set_other, merged_weight by reflexivity.
      subst dumped; simpl.
      now apply (merged_again (validate_float c) JFloat _ _ _
                   (fun _ => eq_refl) Hw).
  - simpl. now rewrite dict_set_set.
Qed.

(** X12: an update whose payload sets [name], [city] or [gender] to an
    explicit null raises [ValidationError] and writes nothing. *)
Theorem update_with_null_text_is_rejected (lm : libm)
  (c : lax) (patient_id : string) (u : PatientUpdate.t) (w : world)
  (data stored : dict) :
  patients_json w = Holds (JObj data) ->
  dict_get data patient_id = Some (JObj stored) ->
  PatientUpdate.name u = Some None \/ PatientUpdate.city u = Some None
  \/ PatientUpdate.gender u = Some None ->
  update_patient lm c patient_id u w = (Raise ValidationError, w).
Proof.
  intros Hf Hs Hnull.
  destruct (Patient.init c
              (dict_set
                 (overlay stored (PatientUpdate.model_dump_exclude_unset u))
                 "id" (JStr patient_id))) as [p | e] eqn:Hp.
  - exfalso. apply init_ok in Hp as [_ Hn Hc _ Hg _ _ _].
    rewrite dict_get_set_other in Hn, Hc, Hg by reflexivity.
    rewrite merged_name in Hn. rewrite merged_city in Hc.
    rewrite merged_gender in Hg.
    destruct Hnull as [E | [E | E]]; rewrite E in *; discriminate.
  - rewrite (init_raises _ _ _ Hp) in Hp.
    now apply (update_patient_fails lm c patient_id u w data stored).
Qed.

(** X13: the record a successful create or update persists has exactly the
    eight keys of the dump, in the dump's order, and no [id] key. *)
Theorem written_record_has_the_dumped_keys (lm : libm)
  (c : lax) (key : string) (w w' : world) :
  successful_write lm c key w w' ->
  exists r,
    persisted_record w' key = Some (JObj r)
    /\ dict_keys r = dumped_keys /\ dict_get r "id" = None.
Proof.
  intros [(p & resp & <- & Hrun) | (u & resp & Hrun)].
  - apply create_patient_ok in Hrun as (data & dumped & _ & _ & Hd & ->).
    apply model_dump_ok in Hd as (b & v & _ & _ & ->).
    eexists. unfold persisted_record. simpl. rewrite dict_get_set_same.
    repeat split.
  - apply update_patient_ok in Hrun
      as (data & stored & p & dumped & _ & _ & _ & Hd & ->).
    apply model_dump_ok in Hd as (b & v & _ & _ & ->).
    eexists. unfold persisted_record. simpl. rewrite dict_get_set_same.
    repeat split.
Qed.

(** ** The sign of the computed field *)

(** A float that is not below zero: NaN, a zero, or a positive number. *)
Lemma not_negative_cases (x : float) :
  float_lt x lit_0 = false <->
  match x with
  | S754_infinity true | S754_finite true _ _ => False
  | _ => True
  end.
Proof.
  destruct x as [s | [ | ] | | [ | ] m e]; simpl; split;
    try discriminate; try tauto; auto.
Qed.

Lemma binary_round_aux_sign (m e : Z) (l : location) :
  float_lt (binary_round_aux prec emax false m e l) lit_0 = false.
Proof.
  unfold binary_round_aux.
  destruct (shr_fexp prec emax m e l) as [mrs' e'].
  destruct (shr_fexp prec emax _ e' loc_Exact) as [mrs'' e''].
  destruct (shr_m mrs''); [ reflexivity | | reflexivity ].
  destruct (e'' <=? emax - prec); reflexivity.
Qed.

Lemma binary_round_toward_sign (up : bool) (m e : Z) (l : location) :
  float_lt (binary_round_toward up false m e l) lit_0 = false.
Proof.
  unfold binary_round_toward.
  destruct (shr_fexp prec emax m e l) as [mrs' e'].
  destruct (shr_fexp prec emax _ e' loc_Exact) as [mrs'' e''].
  destruct (shr_m mrs''); [ reflexivity | | reflexivity ].
  destruct (e'' <=? emax - prec); reflexivity.
Qed.

Lemma positive_cases (x : float) :
  float_lt lit_0 x = true ->
  x = S754_infinity false \/ exists m e, x = S754_finite false m e.
Proof.
  destruct x as [s | [ | ] | | [ | ] m e]; simpl; try discriminate; eauto.
Qed.

(** X14: for a record that passes the constraints, [bmi], when it has a
    value, is never below zero. *)
Theorem bmi_is_not_negative (lm : libm) (p : Patient.t) (b : float) :
  Patient.constraints p = true ->
  Patient.bmi lm p = Ok b ->
  float_lt b lit_0 = false.
Proof.
  unfold Patient.constraints. rewrite !andb_true_iff.
  intros ((_ & Hh) & Hw). unfold Patient.bmi.
  apply positive_cases in Hh. apply positive_cases in Hw.
  assert (Hq : forall h2 q,
             float_pow2 lm (Patient.height p) = Ok h2 ->
             float_truediv (Patient.weight p) h2 = Ok q ->
             float_lt q lit_0 = false).
  { intros h2 q H2 Hq.
    assert (N2 : float_lt h2 lit_0 = false).
    { destruct Hh as [Eh | (m & e & Eh)]; rewrite Eh in H2; simpl in H2.
      - now injection H2 as <-.
      - pose proof (binary_round_toward_sign
                      (pow_rounds_up lm (S754_finite false m e))
                      (Zpos (m * m)) (e + e) loc_Exact) as S.
        destruct (binary_round_toward _ false (Zpos (m * m)) (e + e)
                    loc_Exact) eqn:E; try discriminate;
          injection H2 as <-; exact S. }
    unfold float_truediv in Hq.
    destruct (float_is_zero h2) eqn:Z; [ discriminate | ].
    injection Hq as <-.
    apply not_negative_cases in N2.
    destruct Hw as [Ew | (m & e & Ew)]; rewrite Ew;
      destruct h2 as [s2 | [ | ] | | [ | ] m2 e2]; simpl in *;
      try discriminate; try contradiction; try reflexivity.
    destruct (SFdiv_core_binary prec emax (Zpos m) e (Zpos m2) e2)
      as [[mz ez] lz].
    apply binary_round_aux_sign. }
  destruct (float_pow2 lm (Patient.height p)) as [h2 | ]; simpl;
    [ | discriminate ].
  destruct (float_truediv (Patient.weight p) h2) as [q | ] eqn:E; simpl;
    [ | discriminate ].
  intros [= <-]. specialize (Hq h2 q eq_refl E).
  apply not_negative_cases in Hq.
  destruct q as [s | [ | ] | | [ | ] m e]; simpl in Hq;
    try contradiction; try reflexivity.
  unfold round2.
  destruct (match e with
            | Zneg p0 => div_half_even (Zpos m * 100) (2 ^ Zpos p0)
            | _ => Zpos m * 100 * 2 ^ e
            end) as [ | n | n]; try reflexivity.
  unfold SFdiv.
  destruct (SFdiv_core_binary prec emax (Zpos n) 0 100 0) as [[mz ez] lz].
  apply binary_round_aux_sign.
Qed.

(** ** Sort, continued *)

(** *** The order of strings *)

Lemma ascii_eqb_false_nat (a b : ascii) :
  Ascii.eqb a b = false -> nat_of_ascii a <> nat_of_ascii b.
Proof.
  intros E H. apply Ascii.eqb_neq in E. apply E.
  rewrite <- (ascii_nat_embedding a), <- (ascii_nat_embedding b).
  now rewrite H.
Qed.

Lemma str_lt_asym (s t : string) : str_lt s t = true -> str_lt t s = false.
Proof.
  revert t. induction s as [ | a s IH]; intros [ | b t]; simpl;
    try discriminate; try reflexivity.
  rewrite (Ascii.eqb_sym b a).
  destruct (Ascii.eqb a b) eqn:E; [ apply IH | ].
  unfold ascii_lt. rewrite Nat.ltb_lt, Nat.ltb_ge. lia.
Qed.

Lemma str_lt_negtrans (s t r : string) :
  str_lt s t = false -> str_lt t r = false -> str_lt s r = false.
Proof.
  revert t r. induction s as [ | a s IH]; intros [ | b t] [ | c r]; simpl;
    try discriminate; try reflexivity.
  destruct (Ascii.eqb a b) eqn:Eab, (Ascii.eqb b c) eqn:Ebc.
  - apply Ascii.eqb_eq in Eab, Ebc. subst. rewrite Ascii.eqb_refl. apply IH.
  - apply Ascii.eqb_eq in Eab. subst. now rewrite Ebc.
  - apply Ascii.eqb_eq in Ebc. subst. now rewrite Eab.
  - apply ascii_eqb_false_nat in Eab, Ebc. unfold ascii_lt.
    rewrite !Nat.ltb_ge. intros H1 H2.
    destruct (Ascii.eqb a c) eqn:Eac.
    + apply Ascii.eqb_eq in Eac. subst. lia.
    + apply Nat.ltb_ge. lia.
Qed.

(** *** The stable sort on any keys *)

Section StableSortByFacts.

Context {A K : Type}.
Variable ltb : K -> K -> bool.
Variable key : A -> K.
Hypothesis ltb_asym : forall a b, ltb a b = true -> ltb b a = false.
Hypothesis ltb_negtrans :
  forall a b c, ltb a b = false -> ltb b c = false -> ltb a c = false.

Lemma insert_by_perm (x : A) (l : list A) :
  Permutation (x :: l) (insert_by ltb key x l).
Proof.
  induction l as [ | y l IH]; simpl; [ reflexivity | ].
  destruct (ltb (key y) (key x)); [ | reflexivity ].
  rewrite perm_swap. now constructor.
Qed.

Lemma sort_by_perm (l : list A) : Permutation l (sort_by ltb key l).
Proof.
  induction l as [ | x l IH]; simpl; [ constructor | ].
  rewrite <- insert_by_perm. now constructor.
Qed.

Lemma insert_by_sorted (x : A) (l : list A) :
  StronglySorted (in_order ltb key) l ->
  StronglySorted (in_order ltb key) (insert_by ltb key x l).
Proof.
  induction 1 as [ | y l Hl IH Hy]; simpl.
  - repeat constructor.
  - destruct (ltb (key y) (key x)) eqn:E.
    + constructor; [ assumption | ].
      rewrite <- insert_by_perm. constructor; [ | assumption ].
      unfold in_order. now apply ltb_asym.
    + constructor; [ now constructor | ].
      constructor; [ exact E | ].
      eapply Forall_impl; [ | exact Hy ].
      unfold in_order. intros z Hz. now apply (ltb_negtrans _ (key y)).
Qed.

Lemma sort_by_sorted (l : list A) :
  StronglySorted (in_order ltb key) (sort_by ltb key l).
Proof.
  induction l as [ | x l IH]; simpl;
    [ constructor | now apply insert_by_sorted ].
Qed.

(** Stability: a test that only reads the key selects the same elements in
    the same order before and after. *)
Lemma insert_by_filter (test : K -> bool) (x : A) (l : list A) :
  (forall a b, ltb a b = true -> test a = true -> test b = true -> False) ->
  filter (fun y => test (key y)) (insert_by ltb key x l)
  = filter (fun y => test (key y)) (x :: l).
Proof.
  intros Hsame. induction l as [ | y l IH]; simpl; [ reflexivity | ].
  destruct (ltb (key y) (key x)) eqn:E; [ | reflexivity ].
  simpl. rewrite IH. simpl.
  destruct (test (key y)) eqn:Ey, (test (key x)) eqn:Ex; try reflexivity.
  elim (Hsame _ _ E Ey Ex).
Qed.

Lemma sort_by_filter (test : K -> bool) (l : list A) :
  (forall a b, ltb a b = true -> test a = true -> test b = true -> False) ->
  filter (fun y => test (key y)) (sort_by ltb key l)
  = filter (fun y => test (key y)) l.
Proof.
  intros Hsame. induction l as [ | x l IH]; simpl; [ reflexivity | ].
  rewrite (insert_by_filter _ _ _ Hsame). simpl. now rewrite IH.
Qed.

Lemma in_order_rev (l : list A) :
  StronglySorted (in_order ltb key) l ->
  StronglySorted (in_reverse_order ltb key) (rev l).
Proof.
  induction 1 as [ | y l Hl IH Hy]; simpl; [ constructor | ].
  apply sorted_snoc; [ assumption | ].
  apply Forall_rev. exact Hy.
Qed.

End StableSortByFacts.

Lemma less_than_JStr (s t : string) :
  less_than (JStr s) (JStr t) = Ok (str_lt s t).
Proof. reflexivity. Qed.

Section SortOnStrings.

Variable ks : json -> string.

Lemma insert_by_key_strs (x : json) (l : list json) :
  insert_by_key (JStr (ks x), x) (map (fun y => (JStr (ks y), y)) l)
  = Ok (map (fun y => (JStr (ks y), y)) (insert_by str_lt ks x l)).
Proof.
  induction l as [ | y l IH]; [ reflexivity | ].
  cbn -[less_than str_lt]. rewrite less_than_JStr. cbn -[str_lt].
  destruct (str_lt (ks y) (ks x)); [ | reflexivity ].
  rewrite IH. reflexivity.
Qed.

Lemma sort_by_key_strs (l : list json) :
  sort_by_key (map (fun y => (JStr (ks y), y)) l)
  = Ok (map (fun y => (JStr (ks y), y)) (sort_by str_lt ks l)).
Proof.
  induction l as [ | x l IH]; [ reflexivity | ].
  cbn [map sort_by_key sort_by]. rewrite IH.
  cbn [rbind]. apply insert_by_key_strs.
Qed.

Lemma map_snd_keyed_strs (l : list json) :
  map snd (map (fun y => (JStr (ks y), y)) l) = l.
Proof. rewrite map_map. simpl. apply map_id. Qed.

End SortOnStrings.

Lemma keys_of_str_records (sort_by : string) (records : list json) :
  Forall (has_str_key sort_by) records ->
  rmap (fun x => let? k := py_get x sort_by (JInt 0) in Ok (k, x)) records
  = Ok (map (fun x => (JStr (str_key sort_by x), x)) records).
Proof.
  induction 1 as [ | x l (z & Hz) Hl IH]; simpl; [ reflexivity | ].
  unfold str_key at 1. rewrite Hz. simpl. now rewrite IH.
Qed.

Lemma same_string_not_below (s a b : string) :
  str_lt a b = true -> String.eqb a s = true -> String.eqb b s = true ->
  False.
Proof.
  intros H Ea Eb. apply String.eqb_eq in Ea, Eb. subst.
  pose proof (str_lt_asym _ _ H). congruence.
Qed.

(** X15: on a list of records whose sort keys are strings (as for gender)
    the handler returns the stable sort of the records by the key: the same
    records, those of equal key in their first order, none below an earlier
    one for asc, none above an earlier one for desc. *)
Theorem sort_patients_on_list_of_texts
  (sort_by order : string) (records : list json) (w : world) :
  patients_json w = Holds (JList records) ->
  In sort_by ["gender"; "age"] -> In order ["asc"; "desc"] ->
  Forall (has_str_key sort_by) records ->
  exists out,
    sort_patients sort_by order w = (Ok (Return (JList out)), w) /\
    Permutation records out /\
    (forall s, with_str_key sort_by s out = with_str_key sort_by s records) /\
    (order = "asc" ->
     StronglySorted (in_order str_lt (str_key sort_by)) out) /\
    (order = "desc" ->
     StronglySorted (in_reverse_order str_lt (str_key sort_by)) out).
Proof.
  intros Hfile Hs Ho Hk.
  apply str_in_In in Hs. apply str_in_In in Ho.
  unfold sort_patients, valid_fields. rewrite Hs, Ho. cbn [negb].
  unfold bind, load_data, lift, ret. rewrite Hfile.
  unfold sorted. cbn [py_iter rbind]. rewrite (keys_of_str_records _ _ Hk).
  cbn [rbind].
  destruct (String.eqb order "desc") eqn:E.
  - rewrite <- map_rev, sort_by_key_strs. cbn [rbind].
    rewrite <- map_rev, map_snd_keyed_strs.
    eexists. split; [ reflexivity | ].
    apply String.eqb_eq in E. subst order.
    split.
    { rewrite <- Permutation_rev, <- sort_by_perm. apply Permutation_rev. }
    split.
    { intros s. unfold with_str_key. rewrite filter_rev.
      rewrite (sort_by_filter str_lt (str_key sort_by)
                 (fun k => String.eqb k s)).
      - now rewrite filter_rev, rev_involutive.
      - intros a b. apply same_string_not_below. }
    split; [ discriminate | ]. intros _.
    apply in_order_rev, sort_by_sorted;
      [ apply str_lt_asym | apply str_lt_negtrans ].
  - rewrite sort_by_key_strs. cbn [rbind]. rewrite map_snd_keyed_strs.
    eexists. split; [ reflexivity | ].
    split; [ apply sort_by_perm | ].
    split.
    { intros s. unfold with_str_key.
      apply (sort_by_filter str_lt (str_key sort_by)
               (fun k => String.eqb k s)).
      intros a b. apply same_string_not_below. }
    split.
    + intros _. apply sort_by_sorted;
        [ apply str_lt_asym | apply str_lt_negtrans ].
    + intros ->. discriminate.
Qed.

(** *** What the sort cannot sort *)

Lemma keys_of_non_records (sort_by : string) (items : list json) :
  forallb is_record items = false ->
  rmap (fun x => let? k := py_get x sort_by (JInt 0) in Ok (k, x)) items
  = Raise AttributeError.
Proof.
  induction items as [ | x l IH]; simpl; [ discriminate | ].
  destruct x; simpl; try reflexivity.
  intros H. destruct (dict_get o sort_by); simpl; now rewrite (IH H).
Qed.

Lemma sort_of_non_records (sort_by order : string) (w : world)
  (data : json) (items : list json) :
  patients_json w = Holds data ->
  In sort_by ["gender"; "age"] -> In order ["asc"; "desc"] ->
  py_iter data = Ok items ->
  forallb is_record items = false ->
  sort_patients sort_by order w = (Raise AttributeError, w).
Proof.
  intros Hfile Hs Ho Hi Hr.
  apply str_in_In in Hs. apply str_in_In in Ho.
  unfold sort_patients, valid_fields. rewrite Hs, Ho. cbn [negb].
  unfold bind, load_data, lift, ret. rewrite Hfile.
  unfold sorted. rewrite Hi. cbn [rbind].
  now rewrite (keys_of_non_records _ _ Hr).
Qed.

(** C6, at failing inputs: with a valid key and a valid direction the sort
    raises [AttributeError] (a 500, not a result) on every mapping from ids
    to fields that holds a record, the store that [create_patient],
    [update_patient] and [delete_patient] read and write: [sorted] runs over
    the ids, which are strings and have no [get].  The file is left as it
    was. *)
Theorem sort_with_valid_parameters_raises
  (sort_by order : string) (w : world) (data : dict) :
  In sort_by ["gender"; "age"] -> In order ["asc"; "desc"] ->
  patients_json w = Holds (JObj data) -> data <> [] ->
  sort_patients sort_by order w = (Raise AttributeError, w).
Proof.
  intros Hs Ho Hfile Hdata.
  apply (sort_of_non_records sort_by order w _ _ Hfile Hs Ho eq_refl).
  destruct data as [ | [k v] data]; [ now elim Hdata | reflexivity ].
Qed.

Lemma sort_with_valid_parameters_raises_witness :
  In "gender" ["gender"; "age"] /\ In "desc" ["asc"; "desc"]
  /\ sort_patients "gender" "desc" (on_disk store_mapping)
     = (Raise AttributeError, on_disk store_mapping)
  /\ sort_patients "age" "asc" (on_disk store_mapping)
     = (Raise AttributeError, on_disk store_mapping).
Proof.
  split; [ simpl; auto | ]. split; [ simpl; auto | ].
  split.
  - apply (sort_with_valid_parameters_raises "gender" "desc"
             (on_disk store_mapping) mapping_entries);
      [ simpl; auto | simpl; auto | reflexivity | discriminate ].
  - apply (sort_with_valid_parameters_raises "age" "asc"
             (on_disk store_mapping) mapping_entries);
      [ simpl; auto | simpl; auto | reflexivity | discriminate ].
Defined.

(** X16: with a valid key and direction, when the loaded value can be
    iterated and one of its items is not a dict, the sort raises
    [AttributeError] and writes nothing.  The items of a mapping are its keys,
    so this is the case of every mapping that holds a record. *)
Theorem sort_needs_records
  (sort_by order : string) (w : world) (data : json) (items : list json) :
  patients_json w = Holds data ->
  In sort_by ["gender"; "age"] -> In order ["asc"; "desc"] ->
  py_iter data = Ok items ->
  forallb is_record items = false ->
  sort_patients sort_by order w = (Raise AttributeError, w).
Proof.
  intros Hfile Hs Ho Hi Hr.
  apply str_in_In in Hs. apply str_in_In in Ho.
  unfold sort_patients, valid_fields. rewrite Hs, Ho. cbn [negb].
  unfold bind, load_data, lift, ret. rewrite Hfile.
  unfold sorted. rewrite Hi. cbn [rbind].
  now rewrite (keys_of_non_records _ _ Hr).
Qed.

Lemma insert_by_key_perm (x : json * json) (l r : list (json * json)) :
  insert_by_key x l = Ok r -> Permutation (x :: l) r.
Proof.
  revert r. induction l as [ | y l IH]; simpl; intros r.
  - intros [= <-]. reflexivity.
  - destruct (less_than (fst y) (fst x)) as [[ | ] | ]; simpl;
      try discriminate.
    + destruct (insert_by_key x l) as [r' | ]; simpl; [ | discriminate ].
      intros [= <-]. rewrite perm_swap. constructor. now apply IH.
    + intros [= <-]. reflexivity.
Qed.

Lemma sort_by_key_perm (l r : list (json * json)) :
  sort_by_key l = Ok r -> Permutation l r.
Proof.
  revert r. induction l as [ | x l IH]; simpl; intros r.
  - intros [= <-]. constructor.
  - destruct (sort_by_key l) as [r' | ]; simpl; [ | discriminate ].
    intros H. apply insert_by_key_perm in H. rewrite <- H.
    constructor. now apply IH.
Qed.

Lemma less_than_int_str (x y : json * json) :
  (int_keyed x /\ str_keyed y) \/ (str_keyed x /\ int_keyed y) ->
  less_than (fst x) (fst y) = Raise TypeError.
Proof.
  intros [((z & ->) & (s & ->)) | ((s & ->) & (z & ->))]; reflexivity.
Qed.

(** A list of integer and string keys that sorts without an exception holds
    keys of one kind only. *)
Lemma sort_by_key_one_kind (l r : list (json * json)) :
  Forall (fun x => int_keyed x \/ str_keyed x) l ->
  sort_by_key l = Ok r ->
  Forall int_keyed l \/ Forall str_keyed l.
Proof.
  intros Hall. revert r. induction Hall as [ | x l Hx Hl IH]; intros r.
  - intros _. left. constructor.
  - simpl. destruct (sort_by_key l) as [r' | ] eqn:Hs; simpl;
      [ | discriminate ].
    pose proof (sort_by_key_perm _ _ Hs) as Hp.
    specialize (IH r' eq_refl).
    destruct r' as [ | y r'].
    + apply Permutation_sym, Permutation_nil in Hp. subst l.
      intros _. destruct Hx; [ left | right ]; now constructor.
    + simpl.
      destruct (less_than (fst y) (fst x)) as [b | e] eqn:E; simpl;
        [ intros _ | discriminate ].
      assert (Hy : In y l).
      { apply (Permutation_in y (Permutation_sym Hp)). now left. }
      destruct IH as [IH | IH].
      * pose proof (proj1 (Forall_forall _ _) IH y Hy) as Ky.
        destruct Hx as [Kx | Kx]; [ left; now constructor | ].
        rewrite less_than_int_str in E by auto. discriminate.
      * pose proof (proj1 (Forall_forall _ _) IH y Hy) as Ky.
        destruct Hx as [Kx | Kx]; [ | right; now constructor ].
        rewrite less_than_int_str in E by auto. discriminate.
Qed.

Lemma key_of_record (sort_by : string) (x : json) :
  has_int_key sort_by x \/ has_str_key sort_by x ->
  exists k,
    py_get x sort_by (JInt 0) = Ok k
    /\ (int_keyed (k, x) \/ str_keyed (k, x))
    /\ (has_int_key sort_by x -> int_keyed (k, x))
    /\ (has_str_key sort_by x -> str_keyed (k, x)).
Proof.
  intros [(z & Hz) | (s & Hz)].
  - exists (JInt z). unfold int_keyed, str_keyed, has_str_key.
    rewrite Hz. simpl. repeat split; eauto. intros (s & [= ]).
  - exists (JStr s). unfold int_keyed, str_keyed, has_int_key.
    rewrite Hz. simpl. repeat split; eauto. intros (z & [= ]).
Qed.

Lemma keys_of_records (sort_by : string) (records : list json) :
  Forall (fun x => has_int_key sort_by x \/ has_str_key sort_by x) records ->
  exists keyed,
    rmap (fun x => let? k := py_get x sort_by (JInt 0) in Ok (k, x)) records
    = Ok keyed
    /\ Forall (fun x => int_keyed x \/ str_keyed x) keyed
    /\ (Exists (has_int_key sort_by) records -> Exists int_keyed keyed)
    /\ (Exists (has_str_key sort_by) records -> Exists str_keyed keyed).
Proof.
  induction 1 as [ | x l Hx Hl (keyed & Hk & Hall & Hi & Hs)]; simpl.
  - exists []. repeat split; auto; intros H; inversion H.
  - rewrite Hk.
    destruct (key_of_record _ _ Hx) as (k & -> & Hkind & Hki & Hks). simpl.
    exists ((k, x) :: keyed). repeat split.
    + now constructor.
    + intros H. inversion H; subst; [ left; auto | right; auto ].
    + intros H. inversion H; subst; [ left; auto | right; auto ].
Qed.

Lemma two_kinds_do_not_sort (keyed : list (json * json)) :
  Forall (fun x => int_keyed x \/ str_keyed x) keyed ->
  Exists int_keyed keyed -> Exists str_keyed keyed ->
  sort_by_key keyed = Raise TypeError.
Proof.
  intros Hall Hi Hs.
  destruct (sort_by_key keyed) as [r | e] eqn:E.
  - exfalso.
    apply Exists_exists in Hi as (a & Ha & (z & Ka)).
    apply Exists_exists in Hs as (b & Hb & (s & Kb)).
    destruct (sort_by_key_one_kind _ _ Hall E) as [H | H].
    + destruct (proj1 (Forall_forall _ _) H b Hb) as (z' & Kz). congruence.
    + destruct (proj1 (Forall_forall _ _) H a Ha) as (s' & Ks). congruence.
  - now rewrite (sort_by_key_raises _ _ E).
Qed.

Lemma Exists_rev {A : Type} (P : A -> Prop) (l : list A) :
  Exists P l -> Exists P (rev l).
Proof.
  rewrite !Exists_exists. intros (a & Ha & Pa). exists a.
  split; [ now apply in_rev in Ha | assumption ].
Qed.

(** X17: on a list of records where one sort key is an integer (a missing
    key counts as 0) and another is a string, the sort raises [TypeError] in
    both directions. *)
Theorem sort_of_mixed_keys_raises
  (sort_by order : string) (records : list json) (w : world) :
  patients_json w = Holds (JList records) ->
  In sort_by ["gender"; "age"] -> In order ["asc"; "desc"] ->
  Forall (fun x => has_int_key sort_by x \/ has_str_key sort_by x) records ->
  Exists (has_int_key sort_by) records ->
  Exists (has_str_key sort_by) records ->
  sort_patients sort_by order w = (Raise TypeError, w).
Proof.
  intros Hfile Hs Ho Hall Hi Hstr.
  apply str_in_In in Hs. apply str_in_In in Ho.
  unfold sort_patients, valid_fields. rewrite Hs, Ho. cbn [negb].
  unfold bind, load_data, lift, ret. rewrite Hfile.
  unfold sorted. cbn [py_iter rbind].
  destruct (keys_of_records _ _ Hall) as (keyed & -> & Kall & Ki & Ks).
  cbn [rbind]. specialize (Ki Hi). specialize (Ks Hstr).
  destruct (String.eqb order "desc").
  - rewrite (two_kinds_do_not_sort (rev keyed));
      [ reflexivity | now apply Forall_rev | now apply Exists_rev
      | now apply Exists_rev ].
  - now rewrite (two_kinds_do_not_sort keyed).
Qed.

(** ** Get by id, continued *)

(** X18: when get-by-id returns a value, either there was nothing to
    iterate and the value is [None], or the file holds a list and the value
    is its first element, a dict whose [id] equals the id asked for. *)
Theorem view_patient_returns_only_a_match
  (patient_id : Z) (w w' : world) (v : json) :
  view_patient patient_id w = (Ok (Return v), w') ->
  (exists data, contents (patients_json w) = Some data
                /\ py_iter data = Ok [] /\ v = JNull)
  \/ (exists rest o i,
        contents (patients_json w) = Some (JList (v :: rest)) /\ v = JObj o
        /\ dict_get o "id" = Some i /\ eq_int i patient_id = true).
Proof.
  unfold view_patient, bind, lift, load_data, ret.
  destruct (patients_json w) as [ | | r | data | data | data];
    try discriminate.
  all: cbn [contents].
  all: destruct (py_iter data) as [items | ] eqn:Hi; try discriminate.
  all: destruct items as [ | first rest]; simpl;
    [ intros [= <- _]; left; eauto | ].
  all: destruct (py_getitem first "id") as [i | ] eqn:Hg; simpl;
    try discriminate.
  all: destruct (eq_int i patient_id) eqn:E; simpl; try discriminate.
  all: intros [= <- _]; right.
  all: destruct first as [ | | | | | | o]; try discriminate.
  all: simpl in Hg; destruct (dict_get o "id") as [i' | ] eqn:Ho;
    try discriminate.
  all: injection Hg as ->.
  all: destruct data as [ | | | | s | l | d]; simpl in Hi; try discriminate;
    [ exfalso; destruct s; simpl in Hi; discriminate
    | injection Hi as ->; eauto 7
    | exfalso; destruct d; simpl in Hi; discriminate ].
Qed.

Lemma dict_set_not_empty (o : dict) (k : string) (v : json) :
  dict_set o k v <> [].
Proof.
  destruct o as [ | [k' v'] o]; simpl; [ discriminate | ].
  destruct (String.eqb k' k); discriminate.
Qed.

Lemma successful_write_leaves_entries (lm : libm) (c : lax) (key : string)
  (w w' : world) :
  successful_write lm c key w w' ->
  exists entry rest, patients_json w' = Holds (JObj (entry :: rest)).
Proof.
  intros H.
  assert (E : exists data v,
             patients_json w' = Holds (JObj (dict_set data key v))).
  { destruct H as [(p & resp & <- & Hrun) | (u & resp & Hrun)].
    - apply create_patient_ok in Hrun as (data & dumped & _ & _ & _ & ->).
      now exists data, (JObj dumped).
    - apply update_patient_ok in Hrun
        as (data & stored & p & dumped & _ & _ & _ & _ & ->).
      now exists data, (JObj dumped). }
  destruct E as (data & v & E).
  destruct (dict_set data key v) as [ | entry rest] eqn:S.
  - now apply dict_set_not_empty in S.
  - eauto.
Qed.

(** X19: on the file a successful create or update leaves, get-by-id raises
    [TypeError] for every id and the sort raises [AttributeError] for every
    valid key and direction. *)
Theorem queries_fail_after_a_write (lm : libm)
  (c : lax) (key : string) (w w' : world) :
  successful_write lm c key w w' ->
  (forall patient_id, view_patient patient_id w' = (Raise TypeError, w'))
  /\ (forall sort_by order,
        In sort_by ["gender"; "age"] -> In order ["asc"; "desc"] ->
        sort_patients sort_by order w' = (Raise AttributeError, w')).
Proof.
  intros H.
  apply successful_write_leaves_entries in H as ([k v] & rest & Hf).
  split.
  - intros patient_id.
    rewrite (surjective_pairing (view_patient patient_id w')).
    rewrite (view_patient_on_mapping patient_id _ w' Hf).
    now rewrite read_only_view_patient.
  - intros sort_by order Hs Ho.
    apply (sort_of_non_records sort_by order w' _ _ Hf Hs Ho eq_refl).
    reflexivity.
Qed.

(** ** More on delete and update *)

(** X20: after a successful delete, a second delete and an update of the
    same id raise the 404 and write nothing. *)
Theorem deleted_id_is_unknown (lm : libm)
  (c : lax) (patient_id : string) (u : PatientUpdate.t) (w w1 : world)
  (resp : response) :
  delete_patient patient_id w = (Ok resp, w1) ->
  delete_patient patient_id w1 = (Raise not_found, w1)
  /\ update_patient lm c patient_id u w1 = (Raise not_found, w1).
Proof.
  intros H. apply delete_patient_ok in H as (data & _ & _ & ->).
  assert (Hh : dict_has (dict_del data patient_id) patient_id = false).
  { unfold dict_has. now rewrite dict_get_del_same. }
  split.
  - unfold delete_patient, bind, lift, load_data, raise. simpl.
    now rewrite Hh.
  - unfold update_patient, bind, lift, load_data, raise. simpl.
    now rewrite Hh.
Qed.

(** X21: the record a successful update persists passes the constraints of
    the model: its age is an integer between 1 and 119, its height and weight
    are floats above zero. *)
Theorem update_persists_a_valid_record (lm : libm)
  (c : lax) (patient_id : string) (u : PatientUpdate.t) (w w' : world)
  (resp : response) :
  update_patient lm c patient_id u w = (Ok resp, w') ->
  exists r a h wt,
    persisted_record w' patient_id = Some (JObj r)
    /\ dict_get r "age" = Some (JInt a) /\ 0 < a < 120
    /\ dict_get r "height" = Some (JFloat h) /\ float_lt lit_0 h = true
    /\ dict_get r "weight" = Some (JFloat wt) /\ float_lt lit_0 wt = true.
Proof.
  intros H.
  apply update_patient_ok in H
    as (data & stored & p & dumped & _ & _ & Hp & Hd & ->).
  apply init_ok in Hp as [_ _ _ _ _ _ _ Hk].
  apply model_dump_ok in Hd as (b & v & _ & _ & ->).
  unfold Patient.constraints in Hk. rewrite !andb_true_iff in Hk.
  destruct Hk as (((Ha1 & Ha2) & Hh) & Hw).
  apply Z.ltb_lt in Ha1, Ha2.
  eexists _, (Patient.age p), (Patient.height p), (Patient.weight p).
  unfold persisted_record. simpl. rewrite dict_get_set_same.
  repeat split; assumption.
Qed.

(** ** Instances of the further properties *)

Lemma failed_mutation_writes_nothing_witness :
  run rounds_down strict (Create (sample_patient "P004" 41))
    (no_room store_mapping)
  = (Raise OSError,
     {| patients_json := Garbled;
        saved := [JObj (mapping_entries
                        ++ [("P004", JObj (sample_fields 41))])] |})
  /\ ({| patients_json := Garbled;
         saved := [JObj (mapping_entries
                         ++ [("P004", JObj (sample_fields 41))])] |}
      = no_room store_mapping
      \/ (OSError = OSError
          /\ exists data new,
               patients_json (no_room store_mapping) = Unwritable data
               /\ {| patients_json := Garbled;
                     saved := [JObj (mapping_entries
                                     ++ [("P004",
                                          JObj (sample_fields 41))])] |}
                  = {| patients_json := Garbled;
                       saved := new :: saved (no_room store_mapping) |})).
Proof.
  split; [ reflexivity | ].
  apply (failed_mutation_writes_nothing rounds_down strict
           (Create (sample_patient "P004" 41)) (no_room store_mapping)
           _ OSError).
  reflexivity.
Defined.

Lemma failed_mutation_on_sound_file_witness :
  run rounds_down strict (Delete "P009") (on_disk store_mapping)
  = (Raise not_found,
     snd (run rounds_down strict (Delete "P009") (on_disk store_mapping)))
  /\ snd (run rounds_down strict (Delete "P009") (on_disk store_mapping))
     = on_disk store_mapping.
Proof.
  split; [ reflexivity | ].
  apply (failed_mutation_on_sound_file rounds_down strict (Delete "P009")
           (on_disk store_mapping) _ not_found store_mapping).
  - reflexivity.
  - reflexivity.
Defined.

Lemma successful_mutation_saves_once_witness :
  exists data,
    patients_json
      (snd (run rounds_down strict (Create (sample_patient "P004" 41))
              (on_disk store_mapping))) = Holds (JObj data)
    /\ saved (snd (run rounds_down strict (Create (sample_patient "P004" 41))
                     (on_disk store_mapping)))
       = JObj data :: saved (on_disk store_mapping)
    /\ view (snd (run rounds_down strict (Create (sample_patient "P004" 41))
                    (on_disk store_mapping)))
       = (Ok (Return (JObj data)),
          snd (run rounds_down strict (Create (sample_patient "P004" 41))
                 (on_disk store_mapping))).
Proof.
  apply (successful_mutation_saves_once rounds_down strict
           (Create (sample_patient "P004" 41)) (on_disk store_mapping) _
           created).
  reflexivity.
Defined.

Lemma mutation_leaves_other_records_witness :
  "P002" <> target (Update "P001" (new_weight f_90))
  /\ persisted_record
       (snd (run rounds_down strict (Update "P001" (new_weight f_90))
               (on_disk store_mapping))) "P002"
     = persisted_record (on_disk store_mapping) "P002".
Proof.
  split; [ discriminate | ].
  apply (mutation_leaves_other_records rounds_down strict
           (Update "P001" (new_weight f_90)) (on_disk store_mapping) _
           updated "P002").
  - reflexivity.
  - discriminate.
Defined.

Lemma mutation_keeps_order_of_ids_witness :
  exists ks,
    store_keys (on_disk store_mapping) = Some ks
    /\ store_keys
         (snd (run rounds_down strict (Delete "P002")
                 (on_disk store_mapping)))
       = Some (keys_after (Delete "P002") ks).
Proof.
  apply (mutation_keeps_order_of_ids rounds_down strict (Delete "P002")
           (on_disk store_mapping) _ deleted).
  reflexivity.
Defined.

Lemma create_patient_appends_witness :
  create_patient rounds_down (sample_patient "P004" 41) (on_disk store_mapping)
  = (Ok created,
     written (JObj (mapping_entries ++ [("P004", JObj (sample_fields 41))]))
       (on_disk store_mapping)).
Proof.
  exact (create_patient_appends rounds_down (sample_patient "P004" 41)
           (on_disk store_mapping) mapping_entries (sample_fields 41)
           eq_refl eq_refl eq_refl).
Defined.

Lemma delete_patient_removes_witness :
  delete_patient "P002" (on_disk store_mapping)
  = (Ok deleted,
     written (JObj (dict_del mapping_entries "P002")) (on_disk store_mapping))
  /\ persisted_record
       (written (JObj (dict_del mapping_entries "P002"))
          (on_disk store_mapping)) "P002" = None.
Proof.
  exact (delete_patient_removes "P002" (on_disk store_mapping)
           mapping_entries eq_refl eq_refl).
Defined.

Lemma unknown_id_is_not_found_witness :
  update_patient rounds_down strict "P009" (only_age 31) (on_disk store_mapping)
  = (Raise not_found, on_disk store_mapping)
  /\ delete_patient "P009" (on_disk store_mapping)
     = (Raise not_found, on_disk store_mapping).
Proof.
  exact (unknown_id_is_not_found rounds_down strict "P009" (only_age 31)
           (on_disk store_mapping) mapping_entries eq_refl eq_refl).
Defined.

Lemma create_then_delete_restores_witness :
  exists w2,
    delete_patient "P004"
      (snd (create_patient rounds_down (sample_patient "P004" 41)
              (on_disk store_mapping))) = (Ok deleted, w2)
    /\ patients_json w2 = patients_json (on_disk store_mapping).
Proof.
  apply (create_then_delete_restores rounds_down (sample_patient "P004" 41)
           (on_disk store_mapping) _ created).
  reflexivity.
Defined.

Lemma create_twice_conflicts_witness :
  create_patient rounds_down (sample_patient "P004" 50)
    (snd (create_patient rounds_down (sample_patient "P004" 41)
            (on_disk store_mapping)))
  = (Raise (HTTPException 400 "Patient already exists"),
     snd (create_patient rounds_down (sample_patient "P004" 41)
            (on_disk store_mapping))).
Proof.
  apply (create_twice_conflicts rounds_down (sample_patient "P004" 41)
           (sample_patient "P004" 50) (on_disk store_mapping) _ created);
    reflexivity.
Defined.

Lemma update_patient_applies_payload_witness :
  update_patient rounds_down strict "P001" (new_weight f_90)
    (on_disk store_mapping)
  = (Ok updated,
     written
       (JObj (dict_set mapping_entries "P001"
                (JObj [("name", JStr "Asha"); ("city", JStr "Pune");
                       ("age", JInt 30); ("gender", JStr "Female");
                       ("height", JFloat f_1_75); ("weight", JFloat f_90);
                       ("bmi", JFloat f_29_39);
                       ("verdict", JStr "Overweight")])))
       (on_disk store_mapping)).
Proof.
  apply (update_patient_applies_payload rounds_down strict "P001"
           (new_weight f_90) (on_disk store_mapping) mapping_entries
           (sample_fields 30) _
           (sample_patient "P001" 30));
    try reflexivity.
  constructor; reflexivity.
Defined.

Lemma update_patient_twice_witness :
  exists w2,
    update_patient rounds_down strict "P001" (new_weight f_90)
      (snd (update_patient rounds_down strict "P001" (new_weight f_90)
              (on_disk store_mapping))) = (Ok updated, w2)
    /\ patients_json w2
       = patients_json
           (snd (update_patient rounds_down strict "P001" (new_weight f_90)
                   (on_disk store_mapping))).
Proof.
  apply (update_patient_twice rounds_down strict "P001" (new_weight f_90)
           (on_disk store_mapping) _ updated).
  reflexivity.
Defined.

Lemma update_with_null_text_is_rejected_witness :
  update_patient rounds_down strict "P001" null_name (on_disk store_mapping)
  = (Raise ValidationError, on_disk store_mapping).
Proof.
  apply (update_with_null_text_is_rejected rounds_down strict "P001" null_name
           (on_disk store_mapping) mapping_entries (sample_fields 30)
           eq_refl eq_refl).
  left. reflexivity.
Defined.

Lemma written_record_has_the_dumped_keys_witness :
  exists r,
    persisted_record
      (snd (create_patient rounds_down (sample_patient "P004" 41)
              (on_disk store_mapping))) "P004" = Some (JObj r)
    /\ dict_keys r = dumped_keys /\ dict_get r "id" = None.
Proof.
  apply (written_record_has_the_dumped_keys rounds_down strict "P004"
           (on_disk store_mapping)).
  left. exists (sample_patient "P004" 41), created. split; reflexivity.
Defined.

Lemma bmi_is_not_negative_witness :
  Patient.constraints (sample_patient "P001" 30) = true
  /\ float_lt f_22_86 lit_0 = false.
Proof.
  split; [ reflexivity | ].
  exact (bmi_is_not_negative rounds_down (sample_patient "P001" 30) f_22_86
           eq_refl eq_refl).
Defined.

(** Sorted by gender the two men keep their order, after the woman. *)
Example sort_list_by_gender :
  fst (sort_patients "gender" "asc"
         (on_disk (JList [sample_of "Male" 30; sample_of "Female" 20;
                          sample_of "Male" 25])))
  = Ok (Return (JList [sample_of "Female" 20; sample_of "Male" 30;
                       sample_of "Male" 25]))
  /\ fst (sort_patients "gender" "desc"
            (on_disk (JList [sample_of "Male" 30; sample_of "Female" 20;
                             sample_of "Male" 25])))
     = Ok (Return (JList [sample_of "Male" 30; sample_of "Male" 25;
                          sample_of "Female" 20])).
Proof. split; reflexivity. Qed.

Lemma sort_patients_on_list_of_texts_witness :
  exists out,
    sort_patients "gender" "desc"
      (on_disk (JList [sample_of "Male" 30; sample_of "Female" 20;
                       sample_of "Male" 25]))
    = (Ok (Return (JList out)),
       on_disk (JList [sample_of "Male" 30; sample_of "Female" 20;
                       sample_of "Male" 25]))
    /\ Permutation [sample_of "Male" 30; sample_of "Female" 20;
                    sample_of "Male" 25] out
    /\ (forall s,
           with_str_key "gender" s out
           = with_str_key "gender" s
               [sample_of "Male" 30; sample_of "Female" 20;
                sample_of "Male" 25])
    /\ ("desc" = "asc" ->
        StronglySorted (in_order str_lt (str_key "gender")) out)
    /\ ("desc" = "desc" ->
        StronglySorted (in_reverse_order str_lt (str_key "gender")) out).
Proof.
  apply (sort_patients_on_list_of_texts "gender" "desc"
           [sample_of "Male" 30; sample_of "Female" 20; sample_of "Male" 25]
           (on_disk (JList [sample_of "Male" 30; sample_of "Female" 20;
                            sample_of "Male" 25]))).
  - reflexivity.
  - simpl. auto.
  - simpl. auto.
  - repeat constructor; eexists; reflexivity.
Defined.

Lemma sort_needs_records_witness :
  sort_patients "age" "asc" (on_disk store_mapping)
  = (Raise AttributeError, on_disk store_mapping).
Proof.
  apply (sort_needs_records "age" "asc" (on_disk store_mapping) store_mapping
           [JStr "P001"; JStr "P002"; JStr "P003"]).
  - reflexivity.
  - simpl. auto.
  - simpl. auto.
  - reflexivity.
  - reflexivity.
Defined.

Lemma sort_of_mixed_keys_raises_witness :
  sort_patients "gender" "asc"
    (on_disk (JList [sample_of "Male" 30; sample_without_gender 20]))
  = (Raise TypeError,
     on_disk (JList [sample_of "Male" 30; sample_without_gender 20])).
Proof.
  apply (sort_of_mixed_keys_raises "gender" "asc"
           [sample_of "Male" 30; sample_without_gender 20]).
  - reflexivity.
  - simpl. auto.
  - simpl. auto.
  - constructor; [ right; eexists; reflexivity | ].
    constructor; [ left; eexists; reflexivity | constructor ].
  - apply Exists_cons_tl, Exists_cons_hd. eexists. reflexivity.
  - apply Exists_cons_hd. eexists. reflexivity.
Defined.

Lemma view_patient_returns_only_a_match_witness :
  (exists data,
      contents (patients_json (on_disk store_with_ids)) = Some data
      /\ py_iter data = Ok []
      /\ JObj (("id", JInt 1) :: sample_fields 30) = JNull)
  \/ (exists rest o i,
        contents (patients_json (on_disk store_with_ids))
        = Some (JList (JObj (("id", JInt 1) :: sample_fields 30) :: rest))
        /\ JObj (("id", JInt 1) :: sample_fields 30) = JObj o
        /\ dict_get o "id" = Some i /\ eq_int i 1 = true).
Proof.
  apply (view_patient_returns_only_a_match 1 (on_disk store_with_ids)
           (on_disk store_with_ids)).
  reflexivity.
Defined.

Lemma queries_fail_after_a_write_witness :
  (forall patient_id,
      view_patient patient_id
        (snd (create_patient rounds_down (sample_patient "P004" 41)
                (on_disk store_mapping)))
      = (Raise TypeError,
         snd (create_patient rounds_down (sample_patient "P004" 41)
                (on_disk store_mapping))))
  /\ (forall sort_by order,
        In sort_by ["gender"; "age"] -> In order ["asc"; "desc"] ->
        sort_patients sort_by order
          (snd (create_patient rounds_down (sample_patient "P004" 41)
                  (on_disk store_mapping)))
        = (Raise AttributeError,
           snd (create_patient rounds_down (sample_patient "P004" 41)
                  (on_disk store_mapping)))).
Proof.
  apply (queries_fail_after_a_write rounds_down strict "P004"
           (on_disk store_mapping)).
  left. exists (sample_patient "P004" 41), created. split; reflexivity.
Defined.

Lemma deleted_id_is_unknown_witness :
  delete_patient "P002"
    (snd (delete_patient "P002" (on_disk store_mapping)))
  = (Raise not_found, snd (delete_patient "P002" (on_disk store_mapping)))
  /\ update_patient rounds_down strict "P002" (only_age 31)
       (snd (delete_patient "P002" (on_disk store_mapping)))
     = (Raise not_found, snd (delete_patient "P002" (on_disk store_mapping))).
Proof.
  apply (deleted_id_is_unknown rounds_down strict "P002" (only_age 31)
           (on_disk store_mapping) _ deleted).
  reflexivity.
Defined.

Lemma update_persists_a_valid_record_witness :
  exists r a h wt,
    persisted_record
      (snd (update_patient rounds_down strict "P001" (only_age 31)
              (on_disk store_mapping))) "P001" = Some (JObj r)
    /\ dict_get r "age" = Some (JInt a) /\ 0 < a < 120
    /\ dict_get r "height" = Some (JFloat h) /\ float_lt lit_0 h = true
    /\ dict_get r "weight" = Some (JFloat wt) /\ float_lt lit_0 wt = true.
Proof.
  apply (update_persists_a_valid_record rounds_down strict "P001" (only_age 31)
           (on_disk store_mapping) _ updated).
  reflexivity.
Defined.

Lemma sort_patients_on_list_witness :
  exists out,
    sort_patients "age" "asc" (on_disk store_list)
    = (Ok (Return (JList out)), on_disk store_list)
    /\ Permutation [JObj (sample_fields 30); JObj (sample_fields 20);
                    JObj (sample_fields 25)] out
    /\ (forall z,
           with_key (int_key "age") z out
           = with_key (int_key "age") z
               [JObj (sample_fields 30); JObj (sample_fields 20);
                JObj (sample_fields 25)])
    /\ ("asc" = "asc" -> StronglySorted (ascending (int_key "age")) out)
    /\ ("asc" = "desc" -> StronglySorted (descending (int_key "age")) out).
Proof.
  apply (sort_patients_on_list "age" "asc"
           [JObj (sample_fields 30); JObj (sample_fields 20);
            JObj (sample_fields 25)] (on_disk store_list)).
  - reflexivity.
  - simpl. auto.
  - simpl. auto.
  - repeat constructor; eexists; reflexivity.
Defined.

Lemma view_patient_first_only_witness :
  fst (view_patient 2 (on_disk store_with_ids))
  = fst (view_patient 2
           (on_disk (JList [JObj (("id", JInt 1) :: sample_fields 30)]))).
Proof.
  exact (view_patient_first_only 2
           (JObj (("id", JInt 1) :: sample_fields 30))
           [JObj (("id", JInt 2) :: sample_fields 20)]
           (on_disk store_with_ids) eq_refl).
Defined.

Lemma delete_then_view_never_404_witness :
  fst (view_patient 1 (snd (delete_patient "1" (on_disk store_one))))
  = Ok (Return JNull)
  \/ fst (view_patient 1 (snd (delete_patient "1" (on_disk store_one))))
     = Raise TypeError.
Proof.
  apply (delete_then_view_never_404 "1" 1 (on_disk store_one) _ deleted).
  reflexivity.
Defined.
